(** * Weather request handler: a shallow embedding of [backend/lambda_function.py]

    The repository is one AWS Lambda entry point, [lambda_handler].  It reads a
    city from an API Gateway event, calls the weather provider through
    [requests.get], reshapes the provider's JSON payload and returns a
    dictionary with [statusCode], [headers] and [body].

    The embedding keeps what the Python code does:
    - JSON data is the inductive type [pyval], with Python's truthiness,
      [dict.get] and subscripting on it, each raising what Python raises;
    - the body of the [try] block is a computation in a small monad [M] that
      threads the list of upstream calls made so far and may raise a Python
      exception; the [except] clauses are tried in the order of the source;
    - the Python standard library ([json.loads], [json.dumps]), the process
      environment, the clock and the weather provider are not code of the
      repository: they are variables of the section below, so every theorem
      holds whatever they do.

    The [print] calls of lines 50, 104, 117, 130 and 154 write a text that
    holds the city, the text of the provider's reply or the message of an
    exception: [print] raises [UnicodeEncodeError] when the log stream cannot
    encode it, and the embedding keeps that.  The [print] calls of lines 17
    and 71 write the output of [json.dumps], which is ASCII whatever the value
    is, and cannot fail: they are left out. *)

From Stdlib Require Import String Ascii List ZArith Bool Lia PeanoNat.
Import ListNotations.

Local Open Scope string_scope.
Local Open Scope Z_scope.

(* ================================================================= *)
(** ** Python values *)

(** The values [json.loads] produces and [json.dumps] accepts.  A [dict] keeps
    its items in insertion order; a [float] is identified by its [repr]; a
    [str] is written in UTF-8, a lone surrogate as the three bytes of its code
    point. *)
#[local] Set Warnings "-register-all".
Inductive pyval : Type :=
| PNone
| PBool (b : bool)
| PInt (z : Z)
| PFloat (repr : string)
| PStr (s : string)
| PList (items : list pyval)
| PDict (items : list (string * pyval)).
#[local] Set Warnings "register-all".

(** [bool(v)]: [None], [False], zero, and the empty string, list and dict are
    false; everything else is true. *)
Definition truthy (v : pyval) : bool :=
  match v with
  | PNone => false
  | PBool b => b
  | PInt z => negb (z =? 0)
  | PFloat r => negb (String.eqb r "0.0" || String.eqb r "-0.0")
  | PStr EmptyString => false
  | PStr (String _ _) => true
  | PList [] => false
  | PList (_ :: _) => true
  | PDict [] => false
  | PDict (_ :: _) => true
  end.

(** [type(v).__name__] *)
Definition type_name (v : pyval) : string :=
  match v with
  | PNone => "NoneType"
  | PBool _ => "bool"
  | PInt _ => "int"
  | PFloat _ => "float"
  | PStr _ => "str"
  | PList _ => "list"
  | PDict _ => "dict"
  end.

(** Whether every character of a text is ASCII. *)
Fixpoint is_ascii (s : string) : bool :=
  match s with
  | EmptyString => true
  | String c rest => (nat_of_ascii c <? 128)%nat && is_ascii rest
  end.

(** Lookup of a key among the items of a [dict]. *)
Fixpoint dict_lookup (key : string) (items : list (string * pyval)) : option pyval :=
  match items with
  | [] => None
  | (k, v) :: rest => if String.eqb k key then Some v else dict_lookup key rest
  end.

(** [d.get(key, default)] on the items of a [dict]. *)
Definition dict_get (items : list (string * pyval)) (key : string) (default : pyval) : pyval :=
  match dict_lookup key items with
  | Some v => v
  | None => default
  end.

(* ================================================================= *)
(** ** Exceptions *)

(** The exception classes that can reach the handler: Python's built-in ones
    and those of [requests.exceptions].  [RequestsJSONDecodeError] is
    [requests.exceptions.JSONDecodeError], [JSONDecodeError] is
    [json.JSONDecodeError]; [ConnectionError] and [Timeout] are the classes of
    [requests.exceptions], as in the source.  An exception of a class that is
    not listed is handled as its nearest listed base class is.  The classes
    outside [Exception] ([KeyboardInterrupt], [SystemExit]) are not raised by
    anything the handler calls and are not modelled. *)
Inductive exn_class : Type :=
| Exception
| AttributeError | TypeError | ValueError | LookupError | IndexError | KeyError
| UnicodeError | UnicodeEncodeError
| RuntimeError | RecursionError | MemoryError | OSError
| JSONDecodeError
| RequestException
| InvalidJSONError | RequestsJSONDecodeError
| ConnectionError | ProxyError | SSLError
| Timeout | ConnectTimeout | ReadTimeout
| URLRequired | TooManyRedirects
| MissingSchema | InvalidSchema | InvalidURL | InvalidHeader
| ChunkedEncodingError | ContentDecodingError | RetryError.

Scheme Equality for exn_class.

(** The direct base classes, as the [class] statements declare them. *)
Definition bases (c : exn_class) : list exn_class :=
  match c with
  | Exception => []
  | AttributeError | TypeError | ValueError | LookupError
  | RuntimeError | MemoryError | OSError => [Exception]
  | IndexError | KeyError => [LookupError]
  | RecursionError => [RuntimeError]
  | JSONDecodeError => [ValueError]
  | UnicodeError => [ValueError]
  | UnicodeEncodeError => [UnicodeError]
  | RequestException => [OSError]
  | InvalidJSONError => [RequestException]
  | RequestsJSONDecodeError => [InvalidJSONError; JSONDecodeError]
  | ConnectionError => [RequestException]
  | ProxyError | SSLError => [ConnectionError]
  | Timeout => [RequestException]
  | ConnectTimeout => [ConnectionError; Timeout]
  | ReadTimeout => [Timeout]
  | URLRequired | TooManyRedirects => [RequestException]
  | MissingSchema | InvalidSchema | InvalidURL | InvalidHeader => [RequestException; ValueError]
  | ChunkedEncodingError | ContentDecodingError | RetryError => [RequestException]
  end.

(** [c] is [target] or reaches it through at most [depth] base-class steps. *)
Fixpoint derives (depth : nat) (c target : exn_class) : bool :=
  exn_class_beq c target ||
  match depth with
  | O => false
  | S depth' => existsb (fun b => derives depth' b target) (bases c)
  end.

(** [issubclass(c, target)]; no chain of base classes is longer than five. *)
Definition issubclass (c target : exn_class) : bool := derives 5 c target.

(** The reply of the weather provider, a [requests.Response]: the fields the
    handler reads. *)
Record Response : Type := mkResponse {
  status_code : Z;
  text : string
}.

(** A raised exception.  [requests.exceptions.HTTPError] is only ever built by
    [Response.raise_for_status], which attaches the response; every other
    exception is its class and its [str(e)]. *)
Inductive exn : Type :=
| HTTPError (response : Response)
| Exc (cls : exn_class) (msg : string).

(** The result of evaluating a Python expression. *)
Inductive result (A : Type) : Type :=
| Ok (a : A)
| Raised (e : exn).
Arguments Ok {A} a.
Arguments Raised {A} e.

(** [v.get(key, default)]: only a [dict] has the method. *)
Definition py_get (v : pyval) (key : string) (default : pyval) : result pyval :=
  match v with
  | PDict items => Ok (dict_get items key default)
  | _ => Raised (Exc AttributeError
                   ("'" ++ type_name v ++ "' object has no attribute 'get'"))
  end.

(** [v[0]].  A [dict] decoded from JSON has string keys only, so the integer
    key [0] is never found. *)
Definition py_getitem0 (v : pyval) : result pyval :=
  match v with
  | PList [] => Raised (Exc IndexError "list index out of range")
  | PList (x :: _) => Ok x
  | PStr EmptyString => Raised (Exc IndexError "string index out of range")
  | PStr (String c _) => Ok (PStr (String c EmptyString))
  | PDict _ => Raised (Exc KeyError "0")
  | _ => Raised (Exc TypeError ("'" ++ type_name v ++ "' object is not subscriptable"))
  end.

(** [Response.raise_for_status()]: a status from 400 to 599 raises
    [HTTPError] carrying the response. *)
Definition raise_for_status (response : Response) : result unit :=
  if (400 <=? status_code response) && (status_code response <? 600)
  then Raised (HTTPError response)
  else Ok tt.

(* ================================================================= *)
(** ** The handler's effects *)

(** The arguments of the handler's one call of [requests.get]. *)
Record http_request : Type := mkRequest {
  url : pyval;
  request_headers : list (string * pyval);
  params : list (string * pyval);
  timeout : Z
}.

(** What [requests.get] does: it returns a response, or raises an exception of
    some class with some message. *)
Inductive get_outcome : Type :=
| Responded (response : Response)
| Failed (cls : exn_class) (msg : string).

(** What the handler returns to API Gateway. *)
Record proxy_response : Type := mkProxyResponse {
  statusCode : Z;
  headers : list (string * string);
  body : string
}.

(** A computation that may call the provider and may raise: it takes the
    calls made so far and gives its result with the calls made since. *)
Definition M (A : Type) : Type := list http_request -> result A * list http_request.

Definition ret {A : Type} (a : A) : M A := fun calls => (Ok a, calls).

Definition bind {A B : Type} (m : M A) (k : A -> M B) : M B :=
  fun calls =>
    match m calls with
    | (Ok a, calls') => k a calls'
    | (Raised e, calls') => (Raised e, calls')
    end.

Definition raise {A : Type} (e : exn) : M A := fun calls => (Raised e, calls).

(** An expression without effects, used inside a computation. *)
Definition eval {A : Type} (r : result A) : M A :=
  match r with
  | Ok a => ret a
  | Raised e => raise e
  end.

(** [try: body  except ... : handler] *)
Definition try_except {A : Type} (body : M A) (handler : exn -> M A) : M A :=
  fun calls =>
    match body calls with
    | (Ok a, calls') => (Ok a, calls')
    | (Raised e, calls') => handler e calls'
    end.

Notation "x <- m ;; k" := (bind m (fun x => k))
  (at level 61, m at next level, right associativity).
Notation "m ;;; k" := (bind m (fun _ => k))
  (at level 61, right associativity).

(* ================================================================= *)
(** ** A JSON codec to run the handler on concrete events

    The handler is verified for any [json.loads] and [json.dumps].  To run it
    on concrete texts this module gives both for the part of JSON the examples
    use: ASCII text, integers, and strings without [\u] escapes.  A number
    with a fraction or an exponent and a [\u] escape are outside that part and
    no example contains one. *)

Module json.

Definition quote : ascii := "034"%char.
Definition backslash : ascii := "092"%char.

Definition is_space (c : ascii) : bool :=
  match nat_of_ascii c with
  | 32%nat | 9%nat | 10%nat | 13%nat => true
  | _ => false
  end.

Definition is_digit (c : ascii) : bool :=
  let n := nat_of_ascii c in (48 <=? n)%nat && (n <=? 57)%nat.

Fixpoint skip_spaces (s : string) : string :=
  match s with
  | String c rest => if is_space c then skip_spaces rest else s
  | EmptyString => s
  end.

(** The digits at the front of [s], read as a number that continues [acc]. *)
Fixpoint scan_digits (acc : Z) (s : string) : Z * string :=
  match s with
  | String c rest =>
      if is_digit c
      then scan_digits (10 * acc + (Z.of_nat (nat_of_ascii c) - 48)) rest
      else (acc, s)
  | EmptyString => (acc, s)
  end.

(** An integer literal without its sign: one or more digits, and no digit
    after a leading zero. *)
Definition scan_natural (s : string) : option (Z * string) :=
  match s with
  | String c rest =>
      if Ascii.eqb c "0" then Some (0, rest)
      else if is_digit c then Some (scan_digits 0 s)
      else None
  | EmptyString => None
  end.

(** The character an escape sequence stands for. *)
Definition unescape (c : ascii) : option ascii :=
  if Ascii.eqb c quote then Some quote
  else if Ascii.eqb c backslash then Some backslash
  else if Ascii.eqb c "/" then Some "/"%char
  else if Ascii.eqb c "b" then Some "008"%char
  else if Ascii.eqb c "f" then Some "012"%char
  else if Ascii.eqb c "n" then Some "010"%char
  else if Ascii.eqb c "r" then Some "013"%char
  else if Ascii.eqb c "t" then Some "009"%char
  else None.

(** A string literal after its opening quote: the string and what follows
    the closing quote. *)
Fixpoint scan_string (s : string) : option (string * string) :=
  match s with
  | EmptyString => None
  | String c rest =>
      if Ascii.eqb c quote then Some (EmptyString, rest)
      else if Ascii.eqb c backslash then
        match rest with
        | String e rest' =>
            match unescape e, scan_string rest' with
            | Some c', Some (str, after) => Some (String c' str, after)
            | _, _ => None
            end
        | EmptyString => None
        end
      else if (nat_of_ascii c <? 32)%nat then None
      else
        match scan_string rest with
        | Some (str, after) => Some (String c str, after)
        | None => None
        end
  end.

(** [s] without the prefix [p], when it starts with it. *)
Fixpoint strip_prefix (p s : string) : option string :=
  match p, s with
  | EmptyString, _ => Some s
  | String a p', String b s' => if Ascii.eqb a b then strip_prefix p' s' else None
  | String _ _, EmptyString => None
  end.

(** [d[key] = v] on the items of a [dict]: a key that is there keeps its
    place and takes the new value. *)
Fixpoint dict_set (key : string) (v : pyval) (items : list (string * pyval))
  : list (string * pyval) :=
  match items with
  | [] => [(key, v)]
  | (k, old) :: rest =>
      if String.eqb k key then (k, v) :: rest else (k, old) :: dict_set key v rest
  end.

Section Containers.

(** The decoder of the values inside an array or an object. *)
Variable value : string -> option (pyval * string).

(** The rest of an array after one of its elements. *)
Fixpoint array_tail (fuel : nat) (acc : list pyval) (s : string)
  : option (pyval * string) :=
  match fuel with
  | O => None
  | S fuel' =>
      match skip_spaces s with
      | String c rest =>
          if Ascii.eqb c "]" then Some (PList (rev acc), rest)
          else if Ascii.eqb c "," then
            match value rest with
            | Some (v, after) => array_tail fuel' (v :: acc) after
            | None => None
            end
          else None
      | EmptyString => None
      end
  end.

(** One member of an object: a string, a colon and a value. *)
Definition member (s : string) : option (string * pyval * string) :=
  match skip_spaces s with
  | String c rest =>
      if Ascii.eqb c quote then
        match scan_string rest with
        | Some (key, after) =>
            match skip_spaces after with
            | String c' after' =>
                if Ascii.eqb c' ":" then
                  match value after' with
                  | Some (v, after'') => Some (key, v, after'')
                  | None => None
                  end
                else None
            | EmptyString => None
            end
        | None => None
        end
      else None
  | EmptyString => None
  end.

(** The rest of an object after one of its members. *)
Fixpoint object_tail (fuel : nat) (acc : list (string * pyval)) (s : string)
  : option (pyval * string) :=
  match fuel with
  | O => None
  | S fuel' =>
      match skip_spaces s with
      | String c rest =>
          if Ascii.eqb c "}" then Some (PDict acc, rest)
          else if Ascii.eqb c "," then
            match member rest with
            | Some (key, v, after) => object_tail fuel' (dict_set key v acc) after
            | None => None
            end
          else None
      | EmptyString => None
      end
  end.

End Containers.

(** A JSON value at the front of [s], after optional white space. *)
Fixpoint value (fuel : nat) (s : string) : option (pyval * string) :=
  match fuel with
  | O => None
  | S fuel' =>
      let s := skip_spaces s in
      match s with
      | EmptyString => None
      | String c rest =>
          if Ascii.eqb c quote then
            match scan_string rest with
            | Some (str, after) => Some (PStr str, after)
            | None => None
            end
          else if Ascii.eqb c "[" then
            match skip_spaces rest with
            | String "]" after => Some (PList [], after)
            | _ =>
                match value fuel' rest with
                | Some (v, after) => array_tail (value fuel') fuel' [v] after
                | None => None
                end
            end
          else if Ascii.eqb c "{" then
            match skip_spaces rest with
            | String "}" after => Some (PDict [], after)
            | _ =>
                match member (value fuel') rest with
                | Some (key, v, after) =>
                    object_tail (value fuel') fuel' [(key, v)] after
                | None => None
                end
            end
          else if Ascii.eqb c "-" then
            match strip_prefix "Infinity" rest with
            | Some after => Some (PFloat "-inf", after)
            | None =>
                match scan_natural rest with
                | Some (n, after) => Some (PInt (- n), after)
                | None => None
                end
            end
          else
            match strip_prefix "null" s, strip_prefix "true" s, strip_prefix "false" s,
                  strip_prefix "NaN" s, strip_prefix "Infinity" s with
            | Some after, _, _, _, _ => Some (PNone, after)
            | _, Some after, _, _, _ => Some (PBool true, after)
            | _, _, Some after, _, _ => Some (PBool false, after)
            | _, _, _, Some after, _ => Some (PFloat "nan", after)
            | _, _, _, _, Some after => Some (PFloat "inf", after)
            | _, _, _, _, _ =>
                match scan_natural s with
                | Some (n, after) => Some (PInt n, after)
                | None => None
                end
            end
      end
  end.

(** [json.loads(s)]: one value, with nothing but white space after it. *)
Definition loads (s : string) : option pyval :=
  match value (S (String.length s)) s with
  | Some (v, after) =>
      match skip_spaces after with
      | EmptyString => Some v
      | String _ _ => None
      end
  | None => None
  end.

(** The decimal digits of a natural number, most significant first, in
    front of [acc]. *)
Fixpoint digits (fuel : nat) (n : Z) (acc : string) : string :=
  let acc' := String (ascii_of_nat (48 + Z.to_nat (n mod 10))) acc in
  match fuel with
  | O => acc'
  | S fuel' => if n <? 10 then acc' else digits fuel' (n / 10) acc'
  end.

Definition decimal (z : Z) : string :=
  if z <? 0
  then String "-" (digits (Z.to_nat (- z)) (- z) EmptyString)
  else digits (Z.to_nat z) z EmptyString.

Definition hex_digit (n : nat) : ascii :=
  if (n <? 10)%nat then ascii_of_nat (48 + n) else ascii_of_nat (87 + n).

(** The text of a string between its quotes. *)
Fixpoint escape (s : string) : string :=
  match s with
  | EmptyString => EmptyString
  | String c rest =>
      let n := nat_of_ascii c in
      let two (e : ascii) := String backslash (String e (escape rest)) in
      if Ascii.eqb c quote then two quote
      else if Ascii.eqb c backslash then two backslash
      else if (n =? 10)%nat then two "n"%char
      else if (n =? 13)%nat then two "r"%char
      else if (n =? 9)%nat then two "t"%char
      else if (n =? 8)%nat then two "b"%char
      else if (n =? 12)%nat then two "f"%char
      else if (n <? 32)%nat then
        String backslash
          ("u00" ++ String (hex_digit (n / 16)) (String (hex_digit (n mod 16)) (escape rest)))
      else String c (escape rest)
  end.

Definition string_literal (s : string) : string :=
  String quote (escape s ++ String quote EmptyString).

(** [json.dumps(v)] with its default separators. *)
Fixpoint dumps (v : pyval) : string :=
  match v with
  | PNone => "null"
  | PBool true => "true"
  | PBool false => "false"
  | PInt z => decimal z
  | PFloat r =>
      if String.eqb r "nan" then "NaN"
      else if String.eqb r "inf" then "Infinity"
      else if String.eqb r "-inf" then "-Infinity"
      else r
  | PStr s => string_literal s
  | PList items =>
      let fix elements (l : list pyval) : string :=
        match l with
        | [] => EmptyString
        | [x] => dumps x
        | x :: l' => dumps x ++ ", " ++ elements l'
        end in
      "[" ++ elements items ++ "]"
  | PDict items =>
      let fix members (l : list (string * pyval)) : string :=
        match l with
        | [] => EmptyString
        | [(k, x)] => string_literal k ++ ": " ++ dumps x
        | (k, x) :: l' => string_literal k ++ ": " ++ dumps x ++ ", " ++ members l'
        end in
      "{" ++ members items ++ "}"
  end.

(** A JSON text written with apostrophes in place of its quotes. *)
Fixpoint text_of (s : string) : string :=
  match s with
  | EmptyString => EmptyString
  | String c rest => String (if Ascii.eqb c "'" then quote else c) (text_of rest)
  end.

End json.

(* ================================================================= *)
(** ** Concrete events and providers *)

Module Sample.

Definition key : pyval := PStr "rapidapi-key".
Definition host : pyval := PStr "weather.example.com".
Definition endpoint : pyval := PStr "https://weather.example.com/forecast".
Definition now : string := "2024-05-01T12:00:00.000000".

(** An API Gateway event of a POST request with the given body. *)
Definition post (request_body : string) : pyval :=
  PDict [("httpMethod", PStr "POST"); ("body", PStr request_body)].

(** An API Gateway event of a GET request with [?city=...]. *)
Definition get (city : string) : pyval :=
  PDict [("httpMethod", PStr "GET");
         ("queryStringParameters", PDict [("city", PStr city)]);
         ("body", PNone)].

(** A provider that answers every call with the given status and text. *)
Definition replies (status : Z) (reply_text : string) : http_request -> get_outcome :=
  fun _ => Responded {| status_code := status; text := reply_text |}.

(** A provider for which every call raises an exception of the given class. *)
Definition fails (cls : exn_class) (msg : string) : http_request -> get_outcome :=
  fun _ => Failed cls msg.

Definition cairo : pyval := PStr "Cairo".

(** A POST request with the body [{"city": "Cairo"}]. *)
Definition cairo_post : pyval := post (json.text_of "{'city': 'Cairo'}").

(** A reply of the provider with one forecast entry and a second one that is
    not read. *)
Definition forecast_text : string :=
  json.text_of
    "{'cod': '200', 'list': [{'main': {'temprature': 293, 'temprature_feels_like': 291, 'humidity': 40}, 'weather': [{'description': 'clear sky', 'icon': '01d'}], 'wind': {'speed': 3}}, {'main': {}}]}".

(** The character U+D800, a surrogate without its pair. *)
Definition lone_surrogate : string :=
  String "237"%char (String "160"%char (String "128"%char EmptyString)).

(** Whether a text holds a surrogate: in UTF-8 the byte 237 followed by a
    byte from 160 on. *)
Fixpoint has_surrogate (s : string) : bool :=
  match s with
  | String a (String b _ as rest) =>
      ((nat_of_ascii a =? 237)%nat && (160 <=? nat_of_ascii b)%nat) || has_surrogate rest
  | _ => false
  end.

(** A log stream in UTF-8: it encodes every text but one with a surrogate. *)
Definition stdout (log_text : string) : option string :=
  if has_surrogate log_text
  then Some "'utf-8' codec can't encode character: surrogates not allowed"
  else None.

(** The text of a [str] between the quotes of its [repr], for ASCII text. *)
Fixpoint repr_escape (delimiter : ascii) (s : string) : string :=
  match s with
  | EmptyString => EmptyString
  | String c rest =>
      let n := nat_of_ascii c in
      let two (e : ascii) := String json.backslash (String e (repr_escape delimiter rest)) in
      if Ascii.eqb c delimiter then two delimiter
      else if Ascii.eqb c json.backslash then two json.backslash
      else if (n =? 10)%nat then two "n"%char
      else if (n =? 13)%nat then two "r"%char
      else if (n =? 9)%nat then two "t"%char
      else if (n <? 32)%nat || (n =? 127)%nat then
        String json.backslash
          (String "x" (String (json.hex_digit (n / 16))
                         (String (json.hex_digit (n mod 16)) (repr_escape delimiter rest))))
      else String c (repr_escape delimiter rest)
  end.

Fixpoint contains (c : ascii) (s : string) : bool :=
  match s with
  | EmptyString => false
  | String c' rest => Ascii.eqb c c' || contains c rest
  end.

(** [repr] of a [str]: in apostrophes, or in quotes when it holds an
    apostrophe and no quote. *)
Definition repr_str (s : string) : string :=
  let delimiter :=
    if contains "'" s && negb (contains json.quote s) then json.quote else "'"%char in
  String delimiter (repr_escape delimiter s ++ String delimiter EmptyString).

(** [repr(v)] *)
Fixpoint repr (v : pyval) : string :=
  match v with
  | PNone => "None"
  | PBool true => "True"
  | PBool false => "False"
  | PInt z => json.decimal z
  | PFloat r => r
  | PStr s => repr_str s
  | PList items =>
      let fix elements (l : list pyval) : string :=
        match l with
        | [] => EmptyString
        | [x] => repr x
        | x :: l' => repr x ++ ", " ++ elements l'
        end in
      "[" ++ elements items ++ "]"
  | PDict items =>
      let fix members (l : list (string * pyval)) : string :=
        match l with
        | [] => EmptyString
        | [(k, x)] => repr_str k ++ ": " ++ repr x
        | (k, x) :: l' => repr_str k ++ ": " ++ repr x ++ ", " ++ members l'
        end in
      "{" ++ members items ++ "}"
  end.

(** The call the handler makes for the given city in this environment. *)
Definition call (city : pyval) : http_request :=
  {| url := endpoint;
     request_headers := [("X-RapidAPI-Key", key); ("X-RapidAPI-Host", host)];
     params := [("place", city); ("units", PStr "standard");
                ("mode", PStr "json"); ("lang", PStr "en")];
     timeout := 10 |}.

End Sample.

(* ================================================================= *)
(** ** The handler *)

Section Handler.

(** [json.loads] on a [str]: the decoded value, or [None] when it raises
    [json.JSONDecodeError]. *)
Variable json_loads : string -> option pyval.

(** [json.dumps] *)
Variable json_dumps : pyval -> string.

(** The module's globals, read with [os.environ.get]: a [str], or [None]
    for a variable that is not set. *)
Variables RAPIDAPI_KEY RAPIDAPI_HOST WEATHER_API_URL : pyval.

(** The weather provider as [requests.get] sees it. *)
Variable upstream : http_request -> get_outcome.

(** [datetime.now().isoformat()] at the time of the invocation. *)
Variable now_isoformat : string.

(** [str(v)] for a value that is not a [str]: its [repr]. *)
Variable py_repr : pyval -> string.

(** Writing a text that is not ASCII to [sys.stdout]: [None] when the stream
    encodes it, or the message of the [UnicodeEncodeError] that it raises. *)
Variable stdout_write : string -> option string.

(** [str(v)], as an f-string formats a value. *)
Definition py_str (v : pyval) : string :=
  match v with
  | PStr s => s
  | _ => py_repr v
  end.

(** What keeps a text out of the log: nothing for an ASCII text, which every
    stream encodes. *)
Definition encode_error (log_text : string) : option string :=
  if is_ascii log_text then None else stdout_write log_text.

(** [print(log_text)] *)
Definition print (log_text : string) : M unit :=
  match encode_error log_text with
  | None => ret tt
  | Some msg => raise (Exc UnicodeEncodeError msg)
  end.

(** [json.loads(v)]: a value that is not a [str] is a [TypeError]; a [str]
    that does not decode is a [json.JSONDecodeError], whose message no clause
    of the handler reads. *)
Definition loads (v : pyval) : result pyval :=
  match v with
  | PStr s =>
      match json_loads s with
      | Some decoded => Ok decoded
      | None => Raised (Exc JSONDecodeError "Expecting value")
      end
  | _ => Raised (Exc TypeError
                   ("the JSON object must be str, bytes or bytearray, not "
                      ++ type_name v))
  end.

(** [response.json()]: [requests] decodes the text of the reply with the
    standard [json] module and raises its own [JSONDecodeError], a subclass
    of [json.JSONDecodeError], when the text does not decode. *)
Definition response_json (response : Response) : result pyval :=
  match json_loads (text response) with
  | Some decoded => Ok decoded
  | None => Raised (Exc RequestsJSONDecodeError "Expecting value")
  end.

(** [requests.get(...)]: the call is recorded, then the provider answers. *)
Definition requests_get (rq : http_request) : M Response :=
  fun calls =>
    match upstream rq with
    | Responded response => (Ok response, (calls ++ [rq])%list)
    | Failed cls msg => (Raised (Exc cls msg), (calls ++ [rq])%list)
    end.

(** The arguments of [requests.get] at line 67, with the [headers] and
    [params] dictionaries of lines 53 to 65. *)
Definition weather_request (city : pyval) : http_request :=
  {| url := WEATHER_API_URL;
     request_headers := [("X-RapidAPI-Key", RAPIDAPI_KEY);
                         ("X-RapidAPI-Host", RAPIDAPI_HOST)];
     params := [("place", city);
                ("units", PStr "standard");
                ("mode", PStr "json");
                ("lang", PStr "en")];
     timeout := 10 |}.

(** Lines 38 to 99: from the test of [city] to the reply with status 200. *)
Definition fetch_weather (city : pyval) : M proxy_response :=
  if negb (truthy city) then
    ret {| statusCode := 400;
           headers := [("Content-Type", "application/json");
                       ("Access-Control-Allow-Origin", "*");
                       ("Access-Control-Allow-Methods", "GET,POST,OPTIONS");
                       ("Access-Control-Allow-Headers",
                        "Content-Type,X-Amz-Date,Authorization,X-Api-Key,X-Amz-Security-Token")];
           body := json_dumps (PDict [("error", PStr "City parameter is required.")]) |}
  else
    print ("Fetching weather for city: " ++ py_str city) ;;;
    response <- requests_get (weather_request city) ;;
    eval (raise_for_status response) ;;;
    weather_data <- eval (response_json response) ;;
    forecasts <- eval (py_get weather_data "list" (PList [PDict []])) ;;
    first_forecast <- eval (py_getitem0 forecasts) ;;
    main1 <- eval (py_get first_forecast "main" (PDict [])) ;;
    temperature <- eval (py_get main1 "temprature" PNone) ;;
    main2 <- eval (py_get first_forecast "main" (PDict [])) ;;
    feels_like <- eval (py_get main2 "temprature_feels_like" PNone) ;;
    weather1 <- eval (py_get first_forecast "weather" (PList [PDict []])) ;;
    weather1_0 <- eval (py_getitem0 weather1) ;;
    description <- eval (py_get weather1_0 "description" PNone) ;;
    weather2 <- eval (py_get first_forecast "weather" (PList [PDict []])) ;;
    weather2_0 <- eval (py_getitem0 weather2) ;;
    icon <- eval (py_get weather2_0 "icon" PNone) ;;
    main3 <- eval (py_get first_forecast "main" (PDict [])) ;;
    humidity <- eval (py_get main3 "humidity" PNone) ;;
    wind <- eval (py_get first_forecast "wind" (PDict [])) ;;
    wind_speed <- eval (py_get wind "speed" PNone) ;;
    let formatted_weather :=
      PDict [("city", city);
             ("country", PNone);
             ("temperature", temperature);
             ("feels_like", feels_like);
             ("description", description);
             ("icon", icon);
             ("humidity", humidity);
             ("wind_speed", wind_speed);
             ("timestamp", PStr now_isoformat)] in
    ret {| statusCode := 200;
           headers := [("Content-Type", "application/json");
                       ("Access-Control-Allow-Origin", "*");
                       ("Access-Control-Allow-Methods", "GET,POST,OPTIONS");
                       ("Access-Control-Allow-Headers",
                        "Content-Type,X-Amz-Date,Authorization,X-Api-Key,X-Amz-Security-Token")];
           body := json_dumps formatted_weather |}.

(** Lines 16 to 99: the body of the [try] statement.  [event['body']] and
    [event['queryStringParameters']] are read a second time in the source,
    with the value [event.get] gave. *)
Definition try_block (event : pyval) : M proxy_response :=
  event_body <- eval (py_get event "body" PNone) ;;
  if truthy event_body then
    body <- eval (loads event_body) ;;
    city <- eval (py_get body "city" PNone) ;;
    fetch_weather city
  else
    query <- eval (py_get event "queryStringParameters" PNone) ;;
    if truthy query then
      city <- eval (py_get query "city" PNone) ;;
      fetch_weather city
    else
      ret {| statusCode := 400;
             headers := [("Content-Type", "application/json");
                         ("Access-Control-Allow-Origin", "*");
                         ("Access-Control-Allow-Methods", "GET,POST,OPTIONS");
                         ("Access-Control-Allow-Headers",
                          "Content-Type,X-Amz-Date,Authorization,X-Api-Key,X-Amz-Security-Token")];
             body := json_dumps
                       (PDict [("error",
                                PStr "City parameter missing in request body or query string.")]) |}.

(** Lines 101 to 164: the [except] clauses, tried from the first to the
    last; an exception that matches none of them leaves the handler, and so
    does an exception that a clause raises itself. *)
Definition except_clauses (e : exn) : M proxy_response :=
  match e with
  | HTTPError response =>
      let status_code := status_code response in
      let error_message := "HTTP error occurred: " ++ text response in
      print error_message ;;;
      ret {| statusCode := status_code;
             headers := [("Content-Type", "application/json");
                         ("Access-Control-Allow-Origin", "*");
                         ("Access-Control-Allow-Methods", "GET,POST,OPTIONS");
                         ("Access-Control-Allow-Headers",
                          "Content-Type,X-Amz-Date,Authorization,X-Api-Key,X-Amz-Security-Token")];
             body := json_dumps
                       (PDict [("error", PStr "Failed to fetch weather data from external API.");
                               ("details", PStr error_message)]) |}
  | Exc cls msg =>
      if issubclass cls ConnectionError then
        let error_message := "Connection error occurred: " ++ msg in
        print error_message ;;;
        ret {| statusCode := 500;
               headers := [("Content-Type", "application/json");
                           ("Access-Control-Allow-Origin", "*");
                           ("Access-Control-Allow-Methods", "GET,POST,OPTIONS");
                           ("Access-Control-Allow-Headers",
                            "Content-Type,X-Amz-Date,Authorization,X-Api-Key,X-Amz-Security-Token")];
               body := json_dumps
                         (PDict [("error",
                                  PStr "Network connection error while fetching weather data.")]) |}
      else if issubclass cls Timeout then
        let error_message := "Request timed out: " ++ msg in
        print error_message ;;;
        ret {| statusCode := 500;
               headers := [("Content-Type", "application/json");
                           ("Access-Control-Allow-Origin", "*");
                           ("Access-Control-Allow-Methods", "GET,POST,OPTIONS");
                           ("Access-Control-Allow-Headers",
                            "Content-Type,X-Amz-Date,Authorization,X-Api-Key,X-Amz-Security-Token")];
               body := json_dumps (PDict [("error", PStr "Request to external API timed out.")]) |}
      else if issubclass cls JSONDecodeError then
        ret {| statusCode := 400;
               headers := [("Content-Type", "application/json");
                           ("Access-Control-Allow-Origin", "*");
                           ("Access-Control-Allow-Methods", "GET,POST,OPTIONS");
                           ("Access-Control-Allow-Headers",
                            "Content-Type,X-Amz-Date,Authorization,X-Api-Key,X-Amz-Security-Token")];
               body := json_dumps (PDict [("error", PStr "Invalid JSON in request body.")]) |}
      else if issubclass cls Exception then
        let error_message := "An unexpected error occurred: " ++ msg in
        print error_message ;;;
        ret {| statusCode := 500;
               headers := [("Content-Type", "application/json");
                           ("Access-Control-Allow-Origin", "*");
                           ("Access-Control-Allow-Methods", "GET,POST,OPTIONS");
                           ("Access-Control-Allow-Headers",
                            "Content-Type,X-Amz-Date,Authorization,X-Api-Key,X-Amz-Security-Token")];
               body := json_dumps
                         (PDict [("error", PStr "Internal server error.");
                                 ("details", PStr msg)]) |}
      else raise e
  end.

(** [lambda_handler(event, context)] *)
Definition lambda_handler (event context : pyval) : M proxy_response :=
  try_except (try_block event) except_clauses.

(** One invocation: the handler run with no upstream call made yet. *)
Definition invoke (event context : pyval) : result proxy_response * list http_request :=
  lambda_handler event context [].

(* --------------------------------------------------------------- *)
(** *** Notions used in the statements *)

(** The header map the interface promises on every response. *)
Definition cors_headers : list (string * string) :=
  [("Content-Type", "application/json");
   ("Access-Control-Allow-Origin", "*");
   ("Access-Control-Allow-Methods", "GET,POST,OPTIONS");
   ("Access-Control-Allow-Headers",
    "Content-Type,X-Amz-Date,Authorization,X-Api-Key,X-Amz-Security-Token")].

(** The city a request supplies: the [city] entry ([None] when there is
    none) of the JSON object in a non-empty body or, for a request without
    body, of its non-empty query parameters. *)
Definition supplied_city (event : pyval) : option pyval :=
  match event with
  | PDict items =>
      let event_body := dict_get items "body" PNone in
      if truthy event_body then
        match event_body with
        | PStr s =>
            match json_loads s with
            | Some (PDict decoded) => Some (dict_get decoded "city" PNone)
            | _ => None
            end
        | _ => None
        end
      else
        match dict_get items "queryStringParameters" PNone with
        | PDict (item :: query) => Some (dict_get (item :: query) "city" PNone)
        | _ => None
        end
  | _ => None
  end.

Definition is_dict (v : pyval) : bool :=
  match v with
  | PDict _ => true
  | _ => false
  end.

(** A forecast entry the reshaping can read: a mapping whose [main] and
    [wind], when present, are mappings and whose [weather], when present, is
    a sequence that starts with a mapping. *)
Definition well_shaped (forecast : pyval) : bool :=
  match forecast with
  | PDict items =>
      is_dict (dict_get items "main" (PDict []))
      && is_dict (dict_get items "wind" (PDict []))
      && match dict_get items "weather" (PList [PDict []]) with
         | PList (PDict _ :: _) => true
         | _ => false
         end
  | _ => false
  end.

(** Every result of [m] satisfies [P]; nothing is said when [m] raises. *)
Definition ensures {A : Type} (P : A -> Prop) (m : M A) : Prop :=
  forall calls,
    match m calls with
    | (Ok a, _) => P a
    | (Raised _, _) => True
    end.

(** A response with the fixed headers and a body made by [json.dumps]. *)
Definition structured (r : proxy_response) : Prop :=
  headers r = cors_headers /\ exists payload, body r = json_dumps payload.

(** What [m] guarantees: every result satisfies [P] and every exception it
    raises satisfies [Q]. *)
Definition guarantees {A : Type} (P : A -> Prop) (Q : exn -> Prop) (m : M A) : Prop :=
  forall calls,
    match m calls with
    | (Ok a, _) => P a
    | (Raised e, _) => Q e
    end.

(** The same for an expression without effects. *)
Definition yields {A : Type} (P : A -> Prop) (Q : exn -> Prop) (r : result A) : Prop :=
  match r with
  | Ok a => P a
  | Raised e => Q e
  end.

(** [m] makes no call of the provider. *)
Definition silent {A : Type} (m : M A) : Prop :=
  forall calls, snd (m calls) = calls.

(** The exceptions of the [try] block: an [HTTPError] in it comes from
    [raise_for_status] and carries a status from 400 to 599. *)
Definition raised_in_try_block (e : exn) : Prop :=
  match e with
  | HTTPError response => 400 <= status_code response < 600
  | Exc _ _ => True
  end.

(* --------------------------------------------------------------- *)
(** *** Rules for computations *)

Lemma ensures_ret {A : Type} (P : A -> Prop) (a : A) :
  P a -> ensures P (ret a).
Proof. intros HP calls. exact HP. Qed.

Lemma ensures_raise {A : Type} (P : A -> Prop) (e : exn) :
  ensures P (raise e).
Proof. intros calls. exact I. Qed.

Lemma ensures_bind {A B : Type} (P : B -> Prop) (m : M A) (k : A -> M B) :
  (forall a, ensures P (k a)) -> ensures P (bind m k).
Proof.
  intros Hk calls. unfold bind.
  destruct (m calls) as [[a | e] calls'].
  - apply Hk.
  - exact I.
Qed.

Lemma ensures_if {A : Type} (P : A -> Prop) (b : bool) (m1 m2 : M A) :
  ensures P m1 -> ensures P m2 -> ensures P (if b then m1 else m2).
Proof. destruct b; auto. Qed.

Ltac step_through :=
  repeat first
    [ apply ensures_if
    | apply ensures_bind; intro
    | apply ensures_raise
    | apply ensures_ret; split; [reflexivity | eexists; reflexivity] ].

(** Every class of the hierarchy derives from [Exception]. *)
Lemma issubclass_Exception (cls : exn_class) : issubclass cls Exception = true.
Proof. destruct cls; reflexivity. Qed.

Lemma fetch_weather_structured (city : pyval) :
  ensures structured (fetch_weather city).
Proof. unfold fetch_weather. step_through. Qed.

Lemma try_block_structured (event : pyval) :
  ensures structured (try_block event).
Proof.
  unfold try_block. apply ensures_bind; intro event_body.
  apply ensures_if.
  - do 2 (apply ensures_bind; intro). apply fetch_weather_structured.
  - apply ensures_bind; intro query. apply ensures_if.
    + apply ensures_bind; intro. apply fetch_weather_structured.
    + step_through.
Qed.

(** Every response that an [except] clause returns is structured. *)
Lemma except_clauses_structured (e : exn) :
  ensures structured (except_clauses e).
Proof.
  destruct e as [response | cls msg]; unfold except_clauses; cbv zeta; step_through.
Qed.

Lemma lambda_handler_structured
    (event context : pyval) (calls calls' : list http_request) (r : proxy_response) :
  lambda_handler event context calls = (Ok r, calls') -> structured r.
Proof.
  unfold lambda_handler, try_except.
  pose proof (try_block_structured event calls) as Hbody.
  destruct (try_block event calls) as [[r0 | e] calls0].
  - intros [= <- _]. exact Hbody.
  - intros Hclause.
    pose proof (except_clauses_structured e calls0) as Hs.
    rewrite Hclause in Hs. exact Hs.
Qed.

(** A log stream that encodes every text lets every [print] through. *)
Lemma print_written (log_text : string) :
  encode_error log_text = None -> print log_text = ret tt.
Proof. intros Hlog. unfold print. rewrite Hlog. reflexivity. Qed.



(* --------------------------------------------------------------- *)
(** *** Properties of every invocation *)

(** C2: whatever the request and whatever the provider does, the response
    that the handler returns carries the fixed header map: [Content-Type] and
    the three [Access-Control-Allow-*] entries with the values of the
    interface, on the success path and on every error path. *)
Theorem every_response_has_cors_headers
    (event context : pyval) (r : proxy_response) (calls : list http_request) :
  invoke event context = (Ok r, calls) ->
  headers r = cors_headers.
Proof.
  intros Hrun.
  destruct (lambda_handler_structured event context [] calls r Hrun) as [Hh _].
  exact Hh.
Qed.


(* --------------------------------------------------------------- *)
(** *** The paths through the handler *)

(** With a city supplied, the [try] block goes on from line 38 with it. *)
Lemma try_block_supplied (event city : pyval) (calls : list http_request) :
  supplied_city event = Some city ->
  try_block event calls = fetch_weather city calls.
Proof.
  unfold supplied_city, try_block.
  destruct event as [ | | | | | | items]; try discriminate.
  unfold bind at 1. simpl eval. unfold ret at 1.
  destruct (truthy (dict_get items "body" PNone)) eqn:Hbody.
  - destruct (dict_get items "body" PNone) as [ | | | | s | | ]; try discriminate.
    unfold bind, loads.
    destruct (json_loads s) as [[ | | | | | | decoded] | ]; try discriminate.
    intros [= <-]. reflexivity.
  - unfold bind at 1. simpl eval. unfold ret at 1.
    destruct (dict_get items "queryStringParameters" PNone)
      as [ | | | | | | [ | item query]]; try discriminate.
    intros [= <-]. reflexivity.
Qed.

Lemma dict_get_found (items : list (string * pyval)) (key : string) (v default : pyval) :
  dict_lookup key items = Some v -> dict_get items key default = v.
Proof. intros Hfound. unfold dict_get. rewrite Hfound. reflexivity. Qed.

Lemma raise_for_status_passes (response : Response) :
  status_code response < 400 -> raise_for_status response = Ok tt.
Proof.
  intros Hlt. unfold raise_for_status.
  replace (400 <=? status_code response) with false by (symmetry; apply Z.leb_gt; lia).
  reflexivity.
Qed.

Lemma raise_for_status_raises (response : Response) :
  400 <= status_code response < 600 ->
  raise_for_status response = Raised (HTTPError response).
Proof.
  intros [Hlo Hhi]. unfold raise_for_status.
  replace (400 <=? status_code response) with true by (symmetry; apply Z.leb_le; lia).
  replace (status_code response <? 600) with true by (symmetry; apply Z.ltb_lt; lia).
  reflexivity.
Qed.

(** With a city that is true and a log stream that takes the line about it,
    the handler calls the provider once and gets what the provider gives. *)
Lemma fetch_weather_calls (city : pyval) (calls : list http_request) :
  truthy city = true ->
  encode_error ("Fetching weather for city: " ++ py_str city) = None ->
  fetch_weather city calls
  = bind (requests_get (weather_request city))
      (fun response =>
         eval (raise_for_status response) ;;;
         weather_data <- eval (response_json response) ;;
         forecasts <- eval (py_get weather_data "list" (PList [PDict []])) ;;
         first_forecast <- eval (py_getitem0 forecasts) ;;
         main1 <- eval (py_get first_forecast "main" (PDict [])) ;;
         temperature <- eval (py_get main1 "temprature" PNone) ;;
         main2 <- eval (py_get first_forecast "main" (PDict [])) ;;
         feels_like <- eval (py_get main2 "temprature_feels_like" PNone) ;;
         weather1 <- eval (py_get first_forecast "weather" (PList [PDict []])) ;;
         weather1_0 <- eval (py_getitem0 weather1) ;;
         description <- eval (py_get weather1_0 "description" PNone) ;;
         weather2 <- eval (py_get first_forecast "weather" (PList [PDict []])) ;;
         weather2_0 <- eval (py_getitem0 weather2) ;;
         icon <- eval (py_get weather2_0 "icon" PNone) ;;
         main3 <- eval (py_get first_forecast "main" (PDict [])) ;;
         humidity <- eval (py_get main3 "humidity" PNone) ;;
         wind <- eval (py_get first_forecast "wind" (PDict [])) ;;
         wind_speed <- eval (py_get wind "speed" PNone) ;;
         ret {| statusCode := 200;
                headers := cors_headers;
                body := json_dumps
                          (PDict [("city", city);
                                  ("country", PNone);
                                  ("temperature", temperature);
                                  ("feels_like", feels_like);
                                  ("description", description);
                                  ("icon", icon);
                                  ("humidity", humidity);
                                  ("wind_speed", wind_speed);
                                  ("timestamp", PStr now_isoformat)]) |})
      calls.
Proof.
  intros Ht Hlog. unfold fetch_weather. rewrite Ht. simpl negb. cbv iota.
  rewrite (print_written _ Hlog). reflexivity.
Qed.

(** With a city that is true and a log stream that refuses the line about it,
    line 50 raises and the provider is not called. *)
Lemma fetch_weather_unlogged (city : pyval) (msg : string) (calls : list http_request) :
  truthy city = true ->
  encode_error ("Fetching weather for city: " ++ py_str city) = Some msg ->
  fetch_weather city calls = (Raised (Exc UnicodeEncodeError msg), calls).
Proof.
  intros Ht Hlog. unfold fetch_weather. rewrite Ht. simpl negb. cbv iota.
  unfold bind at 1, print. rewrite Hlog. reflexivity.
Qed.

(** The handler on a request that supplies a true city and gets a reply. *)
Ltac call_provider Hcity Htrue Hlog Hreply :=
  unfold invoke, lambda_handler, try_except;
  rewrite (try_block_supplied _ _ _ Hcity);
  rewrite (fetch_weather_calls _ _ Htrue Hlog);
  unfold bind at 1, requests_get at 1;
  rewrite Hreply.

(** The handler from the entry into an [except] clause on. *)
Ltac enter_clause :=
  simpl eval; unfold raise; cbv beta iota;
  unfold except_clauses; cbv beta iota zeta.

(** X16: when a request supplies a non-empty city, the provider is called and
    replies with an error status, from 400 to 599, and the log stream takes
    the line with the text of the reply, the handler returns that status
    unchanged; the body's [error] says that fetching the weather data failed
    and its [details] holds the raw text of the reply, after the words "HTTP
    error occurred: ". *)
Theorem upstream_error_passed_through
    (event context city : pyval) (response : Response) :
  supplied_city event = Some city ->
  truthy city = true ->
  encode_error ("Fetching weather for city: " ++ py_str city) = None ->
  upstream (weather_request city) = Responded response ->
  400 <= status_code response < 600 ->
  encode_error ("HTTP error occurred: " ++ text response) = None ->
  invoke event context
  = (Ok {| statusCode := status_code response;
           headers := cors_headers;
           body := json_dumps
                     (PDict [("error", PStr "Failed to fetch weather data from external API.");
                             ("details",
                              PStr ("HTTP error occurred: " ++ text response))]) |},
     [weather_request city]).
Proof.
  intros Hcity Htrue Hlog Hreply Hstatus Hmsg.
  call_provider Hcity Htrue Hlog Hreply.
  unfold bind at 1. rewrite (raise_for_status_raises _ Hstatus).
  enter_clause. rewrite (print_written _ Hmsg).
  reflexivity.
Qed.

(** What the handler does for C5's and C6's input: when the log stream
    refuses the line with the text of an error reply, line 104 raises inside
    the clause and the exception leaves the handler. *)
Lemma unwritable_error_text_raises
    (event context city : pyval) (response : Response) (msg : string) :
  supplied_city event = Some city ->
  truthy city = true ->
  encode_error ("Fetching weather for city: " ++ py_str city) = None ->
  upstream (weather_request city) = Responded response ->
  400 <= status_code response < 600 ->
  encode_error ("HTTP error occurred: " ++ text response) = Some msg ->
  invoke event context = (Raised (Exc UnicodeEncodeError msg), [weather_request city]).
Proof.
  intros Hcity Htrue Hlog Hreply Hstatus Hmsg.
  call_provider Hcity Htrue Hlog Hreply.
  unfold bind at 1. rewrite (raise_for_status_raises _ Hstatus).
  enter_clause. unfold bind at 1, print. rewrite Hmsg.
  reflexivity.
Qed.

(** C7: when the city extracted from the request is empty or absent (the
    body whose [city] is the empty string is the first case), the handler
    returns status 400 with the error "City parameter is required." and makes
    no call to the provider. *)
Theorem empty_city_rejected (event context city : pyval) :
  supplied_city event = Some city ->
  truthy city = false ->
  invoke event context
  = (Ok {| statusCode := 400;
           headers := cors_headers;
           body := json_dumps (PDict [("error", PStr "City parameter is required.")]) |},
     []).
Proof.
  intros Hcity Hfalse.
  unfold invoke, lambda_handler, try_except.
  rewrite (try_block_supplied _ _ _ Hcity).
  unfold fetch_weather. rewrite Hfalse. reflexivity.
Qed.

(** C8: when the request carries a non-empty body that [json.loads] cannot
    decode, the handler returns status 400 with the error "Invalid JSON in
    request body." (and the provider is not called). *)
Theorem undecodable_body_rejected
    (context : pyval) (items : list (string * pyval)) (request_body : string) :
  dict_get items "body" PNone = PStr request_body ->
  truthy (PStr request_body) = true ->
  json_loads request_body = None ->
  invoke (PDict items) context
  = (Ok {| statusCode := 400;
           headers := cors_headers;
           body := json_dumps (PDict [("error", PStr "Invalid JSON in request body.")]) |},
     []).
Proof.
  intros Hbody Htrue Hloads.
  unfold invoke, lambda_handler, try_except, try_block.
  unfold bind at 1. simpl eval. unfold ret at 1.
  rewrite Hbody, Htrue.
  unfold bind at 1, loads. rewrite Hloads.
  reflexivity.
Qed.

(** C9: when a request supplies a non-empty city and the provider replies
    with a 2xx status and a text that is not valid JSON, the decoding error
    of the provider's payload is caught by the clause written for the
    request body: the response is status 400 with the error "Invalid JSON
    in request body.".  That the provider replies says that it was called;
    the handler calls it when line 50 has written the city to the log, which
    is the third premise. *)
Theorem undecodable_reply_blamed_on_request
    (event context city : pyval) (response : Response) :
  supplied_city event = Some city ->
  truthy city = true ->
  encode_error ("Fetching weather for city: " ++ py_str city) = None ->
  upstream (weather_request city) = Responded response ->
  200 <= status_code response < 300 ->
  json_loads (text response) = None ->
  invoke event context
  = (Ok {| statusCode := 400;
           headers := cors_headers;
           body := json_dumps (PDict [("error", PStr "Invalid JSON in request body.")]) |},
     [weather_request city]).
Proof.
  intros Hcity Htrue Hlog Hreply Hstatus Hloads.
  call_provider Hcity Htrue Hlog Hreply.
  unfold bind at 1. rewrite raise_for_status_passes by lia.
  simpl eval. unfold ret at 1.
  unfold bind at 1, response_json. rewrite Hloads.
  reflexivity.
Qed.

(** C10: when the body of the request decodes to a JSON value that is not an
    object, reading its [city] raises [AttributeError], which only the last
    clause catches: the response is status 500 with the error "Internal
    server error." and the message of the exception under [details], not a
    400. *)
Theorem non_object_body_is_internal_error
    (context : pyval) (items : list (string * pyval))
    (request_body : string) (decoded : pyval) :
  dict_get items "body" PNone = PStr request_body ->
  truthy (PStr request_body) = true ->
  json_loads request_body = Some decoded ->
  is_dict decoded = false ->
  invoke (PDict items) context
  = (Ok {| statusCode := 500;
           headers := cors_headers;
           body := json_dumps
                     (PDict [("error", PStr "Internal server error.");
                             ("details",
                              PStr ("'" ++ type_name decoded
                                        ++ "' object has no attribute 'get'"))]) |},
     []).
Proof.
  intros Hbody Htrue Hloads Hnot.
  unfold invoke, lambda_handler, try_except, try_block.
  unfold bind at 1. simpl eval. unfold ret at 1.
  rewrite Hbody, Htrue.
  unfold bind at 1, loads. rewrite Hloads.
  simpl eval. unfold ret at 1. unfold bind at 1.
  destruct decoded; try discriminate; reflexivity.
Qed.

(** C3, amended: when a request supplies a non-empty city string, in its
    body or in its query parameters, the provider is called (line 50 has
    written the city to the log) and replies with a 2xx status and a JSON
    object whose [list] is a non-empty sequence with a well-shaped first
    entry, the handler returns status 200 and the [city] of the body is the
    city of the request. *)
Theorem city_echoed_for_well_shaped_forecast
    (event context : pyval) (city : string) (response : Response)
    (payload : list (string * pyval)) (first_forecast : pyval) (others : list pyval) :
  supplied_city event = Some (PStr city) ->
  truthy (PStr city) = true ->
  encode_error ("Fetching weather for city: " ++ city) = None ->
  upstream (weather_request (PStr city)) = Responded response ->
  200 <= status_code response < 300 ->
  json_loads (text response) = Some (PDict payload) ->
  dict_lookup "list" payload = Some (PList (first_forecast :: others)) ->
  well_shaped first_forecast = true ->
  exists formatted_weather,
    invoke event context
    = (Ok {| statusCode := 200;
             headers := cors_headers;
             body := json_dumps (PDict formatted_weather) |},
       [weather_request (PStr city)])
    /\ dict_lookup "city" formatted_weather = Some (PStr city).
Proof.
  intros Hcity Htrue Hlog Hreply Hstatus Hloads Hlist Hshape.
  call_provider Hcity Htrue Hlog Hreply.
  unfold bind at 1. rewrite raise_for_status_passes by lia.
  simpl eval. unfold ret at 1.
  unfold bind at 1, response_json. rewrite Hloads.
  simpl eval. unfold ret at 1.
  unfold bind at 1. simpl py_get. rewrite (dict_get_found _ _ _ _ Hlist).
  simpl eval. unfold ret at 1.
  unfold bind at 1. simpl eval. unfold ret at 1.
  destruct first_forecast as [ | | | | | | items]; try discriminate.
  unfold well_shaped in Hshape.
  destruct (dict_get items "main" (PDict [])) as [ | | | | | | main] eqn:Hmain;
    try discriminate.
  destruct (dict_get items "wind" (PDict [])) as [ | | | | | | wind] eqn:Hwind;
    try discriminate.
  destruct (dict_get items "weather" (PList [PDict []]))
    as [ | | | | | [ | [ | | | | | | weather] rest] | ] eqn:Hweather;
    try discriminate.
  unfold bind, eval, ret, py_get.
  rewrite Hmain, Hweather, Hwind. simpl py_getitem0.
  eexists. split; reflexivity.
Qed.

(** What the handler does for C1's input: with a true city, a reply below
    status 400 and a payload whose [list] is the empty sequence, taking
    element 0 raises [IndexError] and the last clause answers 500. *)
Lemma empty_forecast_list_is_internal_error
    (event context city : pyval) (response : Response)
    (payload : list (string * pyval)) :
  supplied_city event = Some city ->
  truthy city = true ->
  encode_error ("Fetching weather for city: " ++ py_str city) = None ->
  upstream (weather_request city) = Responded response ->
  status_code response < 400 ->
  json_loads (text response) = Some (PDict payload) ->
  dict_lookup "list" payload = Some (PList []) ->
  invoke event context
  = (Ok {| statusCode := 500;
           headers := cors_headers;
           body := json_dumps
                     (PDict [("error", PStr "Internal server error.");
                             ("details", PStr "list index out of range")]) |},
     [weather_request city]).
Proof.
  intros Hcity Htrue Hlog Hreply Hstatus Hloads Hlist.
  call_provider Hcity Htrue Hlog Hreply.
  unfold bind at 1. rewrite raise_for_status_passes by lia.
  simpl eval. unfold ret at 1.
  unfold bind at 1, response_json. rewrite Hloads.
  simpl eval. unfold ret at 1.
  unfold bind at 1. simpl py_get. rewrite (dict_get_found _ _ _ _ Hlist).
  reflexivity.
Qed.

(** The handler on a request that supplies a true city when the call of the
    provider raises. *)
Ltac provider_raises Hcity Htrue Hlog Hfail :=
  unfold invoke, lambda_handler, try_except;
  rewrite (try_block_supplied _ _ _ Hcity);
  rewrite (fetch_weather_calls _ _ Htrue Hlog);
  unfold bind at 1, requests_get at 1;
  rewrite Hfail;
  cbv beta iota;
  unfold except_clauses.

(** A timeout that is not also a connection error reaches the clause for
    [Timeout]. *)
Lemma timeout_reported
    (event context city : pyval) (cls : exn_class) (msg : string) :
  supplied_city event = Some city ->
  truthy city = true ->
  encode_error ("Fetching weather for city: " ++ py_str city) = None ->
  upstream (weather_request city) = Failed cls msg ->
  issubclass cls Timeout = true ->
  issubclass cls ConnectionError = false ->
  encode_error ("Request timed out: " ++ msg) = None ->
  invoke event context
  = (Ok {| statusCode := 500;
           headers := cors_headers;
           body := json_dumps (PDict [("error", PStr "Request to external API timed out.")]) |},
     [weather_request city]).
Proof.
  intros Hcity Htrue Hlog Hfail Htimeout Hconn Hmsg.
  provider_raises Hcity Htrue Hlog Hfail.
  rewrite Hconn, Htimeout. cbv beta iota zeta.
  rewrite (print_written _ Hmsg). reflexivity.
Qed.

(** Every connection error, a timeout while connecting among them, is taken
    by the clause for [ConnectionError], which comes first. *)
Lemma connection_error_reported
    (event context city : pyval) (cls : exn_class) (msg : string) :
  supplied_city event = Some city ->
  truthy city = true ->
  encode_error ("Fetching weather for city: " ++ py_str city) = None ->
  upstream (weather_request city) = Failed cls msg ->
  issubclass cls ConnectionError = true ->
  encode_error ("Connection error occurred: " ++ msg) = None ->
  invoke event context
  = (Ok {| statusCode := 500;
           headers := cors_headers;
           body := json_dumps
                     (PDict [("error",
                              PStr "Network connection error while fetching weather data.")]) |},
     [weather_request city]).
Proof.
  intros Hcity Htrue Hlog Hfail Hconn Hmsg.
  provider_raises Hcity Htrue Hlog Hfail.
  rewrite Hconn. cbv beta iota zeta.
  rewrite (print_written _ Hmsg). reflexivity.
Qed.

(* --------------------------------------------------------------- *)
(** *** More rules for computations *)

Lemma guarantees_ret {A : Type} (P : A -> Prop) (Q : exn -> Prop) (a : A) :
  P a -> guarantees P Q (ret a).
Proof. intros HP calls. exact HP. Qed.

Lemma guarantees_bind {A B : Type} (P1 : A -> Prop) (P : B -> Prop) (Q : exn -> Prop)
    (m : M A) (k : A -> M B) :
  guarantees P1 Q m ->
  (forall a, P1 a -> guarantees P Q (k a)) ->
  guarantees P Q (bind m k).
Proof.
  intros Hm Hk calls. unfold bind.
  specialize (Hm calls).
  destruct (m calls) as [[a | e] calls'].
  - apply Hk, Hm.
  - exact Hm.
Qed.

Lemma guarantees_eval {A : Type} (P : A -> Prop) (Q : exn -> Prop) (r : result A) :
  yields P Q r -> guarantees P Q (eval r).
Proof. intros Hr calls. destruct r; exact Hr. Qed.

Lemma silent_ret {A : Type} (a : A) : silent (ret a).
Proof. intros calls. reflexivity. Qed.

Lemma silent_raise {A : Type} (e : exn) : silent (@raise A e).
Proof. intros calls. reflexivity. Qed.

Lemma silent_eval {A : Type} (r : result A) : silent (eval r).
Proof. intros calls. destruct r; reflexivity. Qed.

Lemma silent_print (log_text : string) : silent (print log_text).
Proof. intros calls. unfold print. destruct (encode_error log_text); reflexivity. Qed.

Lemma silent_bind {A B : Type} (m : M A) (k : A -> M B) :
  silent m -> (forall a, silent (k a)) -> silent (bind m k).
Proof.
  intros Hm Hk calls. unfold bind.
  specialize (Hm calls).
  destruct (m calls) as [[a | e] calls']; simpl in Hm; subst calls'.
  - apply Hk.
  - reflexivity.
Qed.

Lemma silent_try_except {A : Type} (m : M A) (handler : exn -> M A) :
  silent m -> (forall e, silent (handler e)) -> silent (try_except m handler).
Proof.
  intros Hm Hh calls. unfold try_except.
  specialize (Hm calls).
  destruct (m calls) as [[a | e] calls']; simpl in Hm; subst calls'.
  - reflexivity.
  - apply Hh.
Qed.

Ltac keep_silent :=
  repeat first
    [ apply silent_ret
    | apply silent_raise
    | apply silent_eval
    | apply silent_print
    | apply silent_bind; [ | intro ] ].

(** Reading a key and taking element 0 raise nothing but built-in
    exceptions. *)
Lemma py_get_yields (v : pyval) (key : string) (default : pyval) :
  yields (fun _ => True) raised_in_try_block (py_get v key default).
Proof. destruct v; exact I. Qed.

Lemma py_getitem0_yields (v : pyval) :
  yields (fun _ => True) raised_in_try_block (py_getitem0 v).
Proof. destruct v as [ | | | | [ | c s] | [ | x l] | ]; exact I. Qed.

Lemma loads_yields (v : pyval) :
  yields (fun _ => True) raised_in_try_block (loads v).
Proof.
  destruct v as [ | | | | s | | ]; try exact I.
  unfold loads. destruct (json_loads s); exact I.
Qed.

Lemma response_json_yields (response : Response) :
  yields (fun _ => True) raised_in_try_block (response_json response).
Proof. unfold response_json. destruct (json_loads (text response)); exact I. Qed.

Lemma raise_for_status_yields (response : Response) :
  yields (fun _ => ~ (400 <= status_code response < 600)) raised_in_try_block
         (raise_for_status response).
Proof.
  unfold raise_for_status.
  destruct (400 <=? status_code response) eqn:Hlo;
    [destruct (status_code response <? 600) eqn:Hhi | ]; simpl.
  - apply Z.leb_le in Hlo. apply Z.ltb_lt in Hhi. lia.
  - apply Z.ltb_ge in Hhi. lia.
  - apply Z.leb_gt in Hlo. lia.
Qed.

Lemma requests_get_guarantees (rq : http_request) :
  guarantees (fun response => upstream rq = Responded response) raised_in_try_block
             (requests_get rq).
Proof.
  intros calls. unfold requests_get.
  destruct (upstream rq) as [response | cls msg]; [reflexivity | exact I].
Qed.

Lemma print_guarantees (log_text : string) :
  guarantees (fun _ => encode_error log_text = None) raised_in_try_block (print log_text).
Proof.
  intros calls. unfold print.
  destruct (encode_error log_text); [exact I | reflexivity].
Qed.

(** A clause that returns after an exception of the [try] block answers with
    a status from 400 to 599. *)
Lemma except_clauses_status
    (e : exn) (calls calls' : list http_request) (r : proxy_response) :
  raised_in_try_block e ->
  except_clauses e calls = (Ok r, calls') ->
  400 <= statusCode r < 600.
Proof.
  intros He.
  destruct e as [response | cls msg]; unfold except_clauses; cbv zeta.
  - unfold bind, print. destruct (encode_error _); [discriminate | ].
    intros [= <- _]. exact He.
  - rewrite issubclass_Exception.
    destruct (issubclass cls ConnectionError);
      [| destruct (issubclass cls Timeout);
         [| destruct (issubclass cls JSONDecodeError)]];
      unfold bind, print;
      try (destruct (encode_error _); [discriminate | ]);
      intros [= <- _]; simpl; lia.
Qed.

(** No clause calls the provider. *)
Lemma except_clauses_silent (e : exn) : silent (except_clauses e).
Proof.
  destruct e as [response | cls msg]; unfold except_clauses; cbv zeta.
  - keep_silent.
  - destruct (issubclass cls ConnectionError);
      [| destruct (issubclass cls Timeout);
         [| destruct (issubclass cls JSONDecodeError);
            [| destruct (issubclass cls Exception)]]];
      keep_silent.
Qed.

(** Without a supplied city the [try] block makes no call: it raises a
    built-in exception or returns the reply for a missing city. *)
Lemma try_block_not_supplied (event : pyval) (calls : list http_request) :
  supplied_city event = None ->
  (exists cls msg, try_block event calls = (Raised (Exc cls msg), calls))
  \/ try_block event calls
     = (Ok {| statusCode := 400;
              headers := cors_headers;
              body := json_dumps
                        (PDict [("error",
                                 PStr "City parameter missing in request body or query string.")]) |},
        calls).
Proof.
  intros Hnone.
  remember (try_block event calls) as out eqn:Hout.
  unfold supplied_city in Hnone. unfold try_block in Hout.
  destruct event as [ | | | | | | items];
    try (subst out; left; eexists; eexists; reflexivity).
  unfold bind at 1 in Hout. simpl eval in Hout. unfold ret at 1 in Hout.
  destruct (truthy (dict_get items "body" PNone)) eqn:Hbody.
  - unfold bind at 1 in Hout.
    destruct (dict_get items "body" PNone) as [ | | | | s | | ];
      try (subst out; left; eexists; eexists; reflexivity).
    unfold loads in Hout.
    destruct (json_loads s) as [decoded | ];
      [ | subst out; left; eexists; eexists; reflexivity].
    simpl eval in Hout. unfold ret at 1 in Hout. unfold bind at 1 in Hout.
    destruct decoded; try discriminate;
      subst out; left; eexists; eexists; reflexivity.
  - unfold bind at 1 in Hout. simpl eval in Hout. unfold ret at 1 in Hout.
    destruct (truthy (dict_get items "queryStringParameters" PNone)) eqn:Hquery.
    + unfold bind at 1 in Hout.
      destruct (dict_get items "queryStringParameters" PNone)
        as [ | | | | | | [ | item query]]; try discriminate;
        subst out; left; eexists; eexists; reflexivity.
    + subst out. right. reflexivity.
Qed.

(** With a true city and the line about it written, the handler makes
    exactly one call, whatever comes of it. *)
Lemma fetch_weather_one_call (city : pyval) (calls : list http_request) :
  truthy city = true ->
  encode_error ("Fetching weather for city: " ++ py_str city) = None ->
  snd (fetch_weather city calls) = (calls ++ [weather_request city])%list.
Proof.
  intros Htrue Hlog. rewrite (fetch_weather_calls _ _ Htrue Hlog).
  unfold bind at 1, requests_get at 1.
  destruct (upstream (weather_request city)) as [response | cls msg]; [ | reflexivity].
  match goal with
  | |- snd (?k ?l) = ?l => assert (Hk : silent k); [ | exact (Hk l)]
  end.
  keep_silent.
Qed.

Lemma calls_when_city_supplied (event context city : pyval) :
  supplied_city event = Some city ->
  truthy city = true ->
  encode_error ("Fetching weather for city: " ++ py_str city) = None ->
  snd (invoke event context) = [weather_request city].
Proof.
  intros Hcity Htrue Hlog.
  unfold invoke, lambda_handler, try_except.
  rewrite (try_block_supplied _ _ _ Hcity).
  pose proof (fetch_weather_one_call city [] Htrue Hlog) as Hcalls.
  destruct (fetch_weather city []) as [[r | e] calls']; simpl in Hcalls; subst calls'.
  - reflexivity.
  - apply except_clauses_silent.
Qed.

Lemma calls_when_city_unlogged (event context city : pyval) (msg : string) :
  supplied_city event = Some city ->
  truthy city = true ->
  encode_error ("Fetching weather for city: " ++ py_str city) = Some msg ->
  snd (invoke event context) = [].
Proof.
  intros Hcity Htrue Hlog.
  unfold invoke, lambda_handler, try_except.
  rewrite (try_block_supplied _ _ _ Hcity).
  rewrite (fetch_weather_unlogged _ _ _ Htrue Hlog).
  apply except_clauses_silent.
Qed.

Lemma calls_when_city_false (event context city : pyval) :
  supplied_city event = Some city ->
  truthy city = false ->
  snd (invoke event context) = [].
Proof.
  intros Hcity Hfalse.
  unfold invoke, lambda_handler, try_except.
  rewrite (try_block_supplied _ _ _ Hcity).
  unfold fetch_weather. rewrite Hfalse. reflexivity.
Qed.

Lemma calls_when_no_city (event context : pyval) :
  supplied_city event = None ->
  snd (invoke event context) = [].
Proof.
  intros Hnone.
  unfold invoke, lambda_handler, try_except.
  destruct (try_block_not_supplied event [] Hnone) as [[cls [msg Hraise]] | Hret].
  - rewrite Hraise. apply except_clauses_silent.
  - rewrite Hret. reflexivity.
Qed.

Lemma raise_for_status_outside (response : Response) :
  ~ (400 <= status_code response < 600) -> raise_for_status response = Ok tt.
Proof.
  intros Hout. unfold raise_for_status.
  destruct (400 <=? status_code response) eqn:Hlo;
    [destruct (status_code response <? 600) eqn:Hhi | ]; try reflexivity.
  apply Z.leb_le in Hlo. apply Z.ltb_lt in Hhi. lia.
Qed.

(** With a body that is true, the [try] block decodes it and never looks at
    the query parameters. *)
Lemma try_block_with_body (items : list (string * pyval)) (calls : list http_request) :
  truthy (dict_get items "body" PNone) = true ->
  try_block (PDict items) calls
  = bind (eval (loads (dict_get items "body" PNone)))
      (fun body => city <- eval (py_get body "city" PNone) ;; fetch_weather city)
      calls.
Proof.
  intros Htrue. unfold try_block.
  unfold bind at 1. simpl eval. unfold ret at 1.
  rewrite Htrue. reflexivity.
Qed.

Ltac through_evals :=
  repeat (eapply guarantees_bind;
          [ apply guarantees_eval;
            first [ apply py_get_yields | apply py_getitem0_yields
                  | apply response_json_yields | apply loads_yields ]
          | intros ? _ ]).

(** A response of status 200 from line 90 was built after line 50 wrote the
    city to the log, from a reply of the provider that [raise_for_status] let
    through. *)
Lemma fetch_weather_guarantees (city : pyval) :
  guarantees
    (fun r =>
       statusCode r = 400
       \/ (statusCode r = 200
           /\ truthy city = true
           /\ encode_error ("Fetching weather for city: " ++ py_str city) = None
           /\ exists response rest,
               upstream (weather_request city) = Responded response
               /\ ~ (400 <= status_code response < 600)
               /\ body r = json_dumps (PDict (("city", city) :: ("country", PNone) :: rest))))
    raised_in_try_block
    (fetch_weather city).
Proof.
  unfold fetch_weather.
  destruct (truthy city) eqn:Htrue; simpl negb; cbv iota.
  - eapply guarantees_bind; [apply print_guarantees | intros [] Hlog].
    eapply guarantees_bind; [apply requests_get_guarantees | intros response Hreply].
    eapply guarantees_bind;
      [apply guarantees_eval, raise_for_status_yields | intros [] Hstatus].
    through_evals.
    apply guarantees_ret. right.
    split; [reflexivity | split; [reflexivity | split; [exact Hlog | ]]].
    exists response. eexists.
    split; [exact Hreply | split; [exact Hstatus | reflexivity]].
  - apply guarantees_ret. left. reflexivity.
Qed.

(* --------------------------------------------------------------- *)
(** *** Further properties of the handler *)

(** X1: a request with neither a body nor query parameters (each absent,
    null or empty) is answered with status 400 and the error "City parameter
    missing in request body or query string.", without a call of the
    provider. *)
Theorem missing_city_parameter (context : pyval) (items : list (string * pyval)) :
  truthy (dict_get items "body" PNone) = false ->
  truthy (dict_get items "queryStringParameters" PNone) = false ->
  invoke (PDict items) context
  = (Ok {| statusCode := 400;
           headers := cors_headers;
           body := json_dumps
                     (PDict [("error",
                              PStr "City parameter missing in request body or query string.")]) |},
     []).
Proof.
  intros Hbody Hquery.
  unfold invoke, lambda_handler, try_except, try_block.
  unfold bind at 1. simpl eval. unfold ret at 1. rewrite Hbody.
  unfold bind at 1. simpl eval. unfold ret at 1. rewrite Hquery.
  reflexivity.
Qed.

(** X2: a non-empty body decides alone: two events with the same non-empty
    body get the same answer, whatever their query parameters and other
    entries are. *)
Theorem body_shadows_query (context : pyval) (items1 items2 : list (string * pyval)) :
  truthy (dict_get items1 "body" PNone) = true ->
  dict_get items2 "body" PNone = dict_get items1 "body" PNone ->
  invoke (PDict items2) context = invoke (PDict items1) context.
Proof.
  intros Htrue Hsame.
  unfold invoke, lambda_handler, try_except.
  rewrite (try_block_with_body items1) by exact Htrue.
  rewrite (try_block_with_body items2) by (rewrite Hsame; exact Htrue).
  rewrite Hsame. reflexivity.
Qed.

(** X3: for a request that supplies a non-empty city, the provider is called
    exactly when line 50 can write the city to the log.  If it can, the
    handler makes exactly one call, whatever the provider then does: at the
    configured URL, with the two RapidAPI headers, the parameters [place]
    (the city), [units=standard], [mode=json], [lang=en], and a timeout of
    10.  If it cannot, the handler makes no call. *)
Theorem one_call_when_city_is_logged (event context city : pyval) :
  supplied_city event = Some city ->
  truthy city = true ->
  (encode_error ("Fetching weather for city: " ++ py_str city) = None ->
   snd (invoke event context)
   = [ {| url := WEATHER_API_URL;
          request_headers := [("X-RapidAPI-Key", RAPIDAPI_KEY);
                              ("X-RapidAPI-Host", RAPIDAPI_HOST)];
          params := [("place", city);
                     ("units", PStr "standard");
                     ("mode", PStr "json");
                     ("lang", PStr "en")];
          timeout := 10 |} ])
  /\ (encode_error ("Fetching weather for city: " ++ py_str city) <> None ->
      snd (invoke event context) = []).
Proof.
  intros Hcity Htrue. split.
  - intros Hlog. apply (calls_when_city_supplied event context city); assumption.
  - intros Hlog.
    destruct (encode_error ("Fetching weather for city: " ++ py_str city)) as [msg | ] eqn:He;
      [ | contradiction].
    apply (calls_when_city_unlogged event context city msg); assumption.
Qed.

(** X4: no invocation calls the provider more than once, and the provider is
    called only for a city that the request supplies and that is not
    empty. *)
Theorem at_most_one_call (event context : pyval) :
  snd (invoke event context) = []
  \/ exists city,
      supplied_city event = Some city
      /\ truthy city = true
      /\ snd (invoke event context) = [weather_request city].
Proof.
  destruct (supplied_city event) as [city | ] eqn:Hcity.
  - destruct (truthy city) eqn:Htrue.
    + destruct (encode_error ("Fetching weather for city: " ++ py_str city))
        as [msg | ] eqn:Hlog.
      * left. apply (calls_when_city_unlogged _ _ city msg); assumption.
      * right. exists city.
        split; [reflexivity | split; [exact Htrue | ]].
        apply calls_when_city_supplied; assumption.
    + left. apply (calls_when_city_false _ _ city); assumption.
  - left. apply calls_when_no_city. exact Hcity.
Qed.

(** X7: the status of every response that the handler returns is 200 or lies
    between 400 and 599. *)
Theorem status_is_200_or_error
    (event context : pyval) (r : proxy_response) (calls : list http_request) :
  invoke event context = (Ok r, calls) ->
  statusCode r = 200 \/ 400 <= statusCode r < 600.
Proof.
  unfold invoke, lambda_handler, try_except.
  destruct (supplied_city event) as [city | ] eqn:Hcity.
  - rewrite (try_block_supplied _ _ _ Hcity).
    pose proof (fetch_weather_guarantees city []) as Hg.
    destruct (fetch_weather city []) as [[r0 | e] calls0].
    + intros [= <- _].
      destruct Hg as [H400 | [H200 _]]; [right; lia | left; exact H200].
    + intros Hclause. right.
      exact (except_clauses_status e calls0 calls r Hg Hclause).
  - destruct (try_block_not_supplied event [] Hcity) as [[cls [msg Hraise]] | Hret].
    + rewrite Hraise. intros Hclause. right.
      exact (except_clauses_status (Exc cls msg) [] calls r I Hclause).
    + rewrite Hret. intros [= <- _]. right. simpl. lia.
Qed.

(** X8: status 200 is only returned for a forecast: when the response has
    status 200, the request supplied a non-empty city, the provider was called
    once for it and replied with a status outside 400 to 599, and the body
    starts with that city and a null country. *)
Theorem ok_status_means_forecast_served
    (event context : pyval) (r : proxy_response) (calls : list http_request) :
  invoke event context = (Ok r, calls) ->
  statusCode r = 200 ->
  exists city response rest,
    supplied_city event = Some city
    /\ truthy city = true
    /\ calls = [weather_request city]
    /\ upstream (weather_request city) = Responded response
    /\ ~ (400 <= status_code response < 600)
    /\ body r = json_dumps (PDict (("city", city) :: ("country", PNone) :: rest)).
Proof.
  intros Hrun H200.
  destruct (supplied_city event) as [city | ] eqn:Hcity.
  - assert (Hserved : truthy city = true
                      /\ encode_error ("Fetching weather for city: " ++ py_str city) = None
                      /\ exists response rest,
                          upstream (weather_request city) = Responded response
                          /\ ~ (400 <= status_code response < 600)
                          /\ body r = json_dumps
                                        (PDict (("city", city) :: ("country", PNone) :: rest))).
    { revert Hrun. unfold invoke, lambda_handler, try_except.
      rewrite (try_block_supplied _ _ _ Hcity).
      pose proof (fetch_weather_guarantees city []) as Hg.
      destruct (fetch_weather city []) as [[r' | e] calls'].
      - intros [= -> _].
        destruct Hg as [H400 | [_ Hs]]; [lia | exact Hs].
      - intros Hclause.
        pose proof (except_clauses_status e calls' calls r Hg Hclause). lia. }
    destruct Hserved as [Htrue [Hlog [response [rest [Hreply [Hstatus Hbody]]]]]].
    exists city, response, rest.
    pose proof (calls_when_city_supplied event context city Hcity Htrue Hlog) as Hcalls.
    rewrite Hrun in Hcalls. simpl in Hcalls.
    repeat split; assumption.
  - exfalso. revert Hrun. unfold invoke, lambda_handler, try_except.
    destruct (try_block_not_supplied event [] Hcity) as [[cls [msg Hraise]] | Hret].
    + rewrite Hraise. intros Hclause.
      pose proof (except_clauses_status (Exc cls msg) [] calls r I Hclause). lia.
    + rewrite Hret. intros [= <- _]. discriminate H200.
Qed.

(** The handler from the reply on: a request that supplies a true city, and a
    reply that [raise_for_status] lets through and that decodes to an
    object. *)
Ltac read_payload Hcity Htrue Hlog Hreply Hstatus Hloads :=
  call_provider Hcity Htrue Hlog Hreply;
  unfold bind at 1; rewrite (raise_for_status_outside _ Hstatus);
  simpl eval; unfold ret at 1;
  unfold bind at 1, response_json; rewrite Hloads;
  simpl eval; unfold ret at 1;
  unfold bind at 1; simpl py_get.

(** The reshaping of the entry that line 76 selects. *)
Lemma reshape_first_forecast
    (event context city : pyval) (response : Response)
    (payload items main wind description : list (string * pyval))
    (others more : list pyval) :
  supplied_city event = Some city ->
  truthy city = true ->
  encode_error ("Fetching weather for city: " ++ py_str city) = None ->
  upstream (weather_request city) = Responded response ->
  ~ (400 <= status_code response < 600) ->
  json_loads (text response) = Some (PDict payload) ->
  dict_get payload "list" (PList [PDict []]) = PList (PDict items :: others) ->
  dict_get items "main" (PDict []) = PDict main ->
  dict_get items "weather" (PList [PDict []]) = PList (PDict description :: more) ->
  dict_get items "wind" (PDict []) = PDict wind ->
  invoke event context
  = (Ok {| statusCode := 200;
           headers := cors_headers;
           body := json_dumps
                     (PDict [("city", city);
                             ("country", PNone);
                             ("temperature", dict_get main "temprature" PNone);
                             ("feels_like", dict_get main "temprature_feels_like" PNone);
                             ("description", dict_get description "description" PNone);
                             ("icon", dict_get description "icon" PNone);
                             ("humidity", dict_get main "humidity" PNone);
                             ("wind_speed", dict_get wind "speed" PNone);
                             ("timestamp", PStr now_isoformat)]) |},
     [weather_request city]).
Proof.
  intros Hcity Htrue Hlog Hreply Hstatus Hloads Hlist Hmain Hweather Hwind.
  read_payload Hcity Htrue Hlog Hreply Hstatus Hloads.
  rewrite Hlist. simpl eval. unfold ret at 1.
  unfold bind, eval, ret, py_get, py_getitem0.
  rewrite Hmain, Hweather, Hwind.
  reflexivity.
Qed.

(** X5: the success path.  When the request supplies a non-empty city that
    line 50 can write to the log, the provider's reply has a status outside
    400 to 599 and decodes to an object whose [list] starts with a mapping,
    and in that mapping [main] and [wind] are mappings and [weather] starts
    with a mapping (each may also be missing), the response has status 200 and
    its body holds the city of the request, a null country,
    [main.temprature], [main.temprature_feels_like], [weather[0].description],
    [weather[0].icon], [main.humidity], [wind.speed] (null for each missing
    key) and the time of the clock.  Only the first entry of [list] and of
    [weather] is read. *)
Theorem first_forecast_reshaped
    (event context city : pyval) (response : Response)
    (payload items main wind description : list (string * pyval))
    (others more : list pyval) :
  supplied_city event = Some city ->
  truthy city = true ->
  encode_error ("Fetching weather for city: " ++ py_str city) = None ->
  upstream (weather_request city) = Responded response ->
  ~ (400 <= status_code response < 600) ->
  json_loads (text response) = Some (PDict payload) ->
  dict_lookup "list" payload = Some (PList (PDict items :: others)) ->
  dict_get items "main" (PDict []) = PDict main ->
  dict_get items "weather" (PList [PDict []]) = PList (PDict description :: more) ->
  dict_get items "wind" (PDict []) = PDict wind ->
  invoke event context
  = (Ok {| statusCode := 200;
           headers := cors_headers;
           body := json_dumps
                     (PDict [("city", city);
                             ("country", PNone);
                             ("temperature", dict_get main "temprature" PNone);
                             ("feels_like", dict_get main "temprature_feels_like" PNone);
                             ("description", dict_get description "description" PNone);
                             ("icon", dict_get description "icon" PNone);
                             ("humidity", dict_get main "humidity" PNone);
                             ("wind_speed", dict_get wind "speed" PNone);
                             ("timestamp", PStr now_isoformat)]) |},
     [weather_request city]).
Proof.
  intros Hcity Htrue Hlog Hreply Hstatus Hloads Hlist Hmain Hweather Hwind.
  apply (reshape_first_forecast event context city response
           payload items main wind description others more); try assumption.
  apply dict_get_found. exact Hlist.
Qed.

(** X6: when the request supplies a non-empty city that line 50 can write to
    the log and the payload of the reply is an object without the key [list],
    the default of line 76 stands in for the first entry: the response has
    status 200 and every weather field of its body is null. *)
Theorem absent_list_gives_null_fields
    (event context city : pyval) (response : Response)
    (payload : list (string * pyval)) :
  supplied_city event = Some city ->
  truthy city = true ->
  encode_error ("Fetching weather for city: " ++ py_str city) = None ->
  upstream (weather_request city) = Responded response ->
  ~ (400 <= status_code response < 600) ->
  json_loads (text response) = Some (PDict payload) ->
  dict_lookup "list" payload = None ->
  invoke event context
  = (Ok {| statusCode := 200;
           headers := cors_headers;
           body := json_dumps
                     (PDict [("city", city);
                             ("country", PNone);
                             ("temperature", PNone);
                             ("feels_like", PNone);
                             ("description", PNone);
                             ("icon", PNone);
                             ("humidity", PNone);
                             ("wind_speed", PNone);
                             ("timestamp", PStr now_isoformat)]) |},
     [weather_request city]).
Proof.
  intros Hcity Htrue Hlog Hreply Hstatus Hloads Hlist.
  apply (reshape_first_forecast event context city response
           payload [] [] [] [] [] []); try assumption; try reflexivity.
  unfold dict_get. rewrite Hlist. reflexivity.
Qed.

(** X13: when the provider is called and the first forecast entry of its
    reply has a [weather] that is the empty sequence (and a [main] that is a
    mapping or missing), taking element 0 at line 83 raises [IndexError]: the
    response is status 500 "Internal server error." with the details "list
    index out of range". *)
Theorem empty_weather_list_is_internal_error
    (event context city : pyval) (response : Response)
    (payload items main : list (string * pyval)) (others : list pyval) :
  supplied_city event = Some city ->
  truthy city = true ->
  encode_error ("Fetching weather for city: " ++ py_str city) = None ->
  upstream (weather_request city) = Responded response ->
  ~ (400 <= status_code response < 600) ->
  json_loads (text response) = Some (PDict payload) ->
  dict_lookup "list" payload = Some (PList (PDict items :: others)) ->
  dict_get items "main" (PDict []) = PDict main ->
  dict_lookup "weather" items = Some (PList []) ->
  invoke event context
  = (Ok {| statusCode := 500;
           headers := cors_headers;
           body := json_dumps
                     (PDict [("error", PStr "Internal server error.");
                             ("details", PStr "list index out of range")]) |},
     [weather_request city]).
Proof.
  intros Hcity Htrue Hlog Hreply Hstatus Hloads Hlist Hmain Hweather.
  read_payload Hcity Htrue Hlog Hreply Hstatus Hloads.
  rewrite (dict_get_found _ _ _ _ Hlist). simpl eval. unfold ret at 1.
  unfold bind, eval, ret, py_get, py_getitem0.
  rewrite Hmain, (dict_get_found _ _ _ _ Hweather).
  reflexivity.
Qed.

(** X14: the defaults of lines 81 to 86 only stand in for a missing key.
    When the provider is called and the first forecast entry of its reply has
    a [main] that is not a mapping ([null], a number, a string, a list),
    reading the temperature raises [AttributeError]: the response is status
    500 "Internal server error." with the message of the exception under
    [details]. *)
Theorem non_mapping_main_is_internal_error
    (event context city main : pyval) (response : Response)
    (payload items : list (string * pyval)) (others : list pyval) :
  supplied_city event = Some city ->
  truthy city = true ->
  encode_error ("Fetching weather for city: " ++ py_str city) = None ->
  upstream (weather_request city) = Responded response ->
  ~ (400 <= status_code response < 600) ->
  json_loads (text response) = Some (PDict payload) ->
  dict_lookup "list" payload = Some (PList (PDict items :: others)) ->
  dict_lookup "main" items = Some main ->
  is_dict main = false ->
  invoke event context
  = (Ok {| statusCode := 500;
           headers := cors_headers;
           body := json_dumps
                     (PDict [("error", PStr "Internal server error.");
                             ("details",
                              PStr ("'" ++ type_name main
                                        ++ "' object has no attribute 'get'"))]) |},
     [weather_request city]).
Proof.
  intros Hcity Htrue Hlog Hreply Hstatus Hloads Hlist Hmain Hnot.
  read_payload Hcity Htrue Hlog Hreply Hstatus Hloads.
  rewrite (dict_get_found _ _ _ _ Hlist). simpl eval. unfold ret at 1.
  unfold bind at 1. simpl eval. unfold ret at 1.
  unfold bind at 1. simpl py_get.
  rewrite (dict_get_found _ _ _ _ Hmain). simpl eval. unfold ret at 1.
  unfold bind at 1.
  destruct main; try discriminate; reflexivity.
Qed.

(** X9: when the provider is called, the call raises [ConnectionError],
    [ProxyError] or [SSLError] of [requests], and the log stream takes the
    line with the message of the exception, the response is status 500 with
    the error "Network connection error while fetching weather data."; the
    message of the exception is not passed on. *)
Theorem unreachable_provider_reported
    (event context city : pyval) (cls : exn_class) (msg : string) :
  supplied_city event = Some city ->
  truthy city = true ->
  encode_error ("Fetching weather for city: " ++ py_str city) = None ->
  upstream (weather_request city) = Failed cls msg ->
  In cls [ConnectionError; ProxyError; SSLError] ->
  encode_error ("Connection error occurred: " ++ msg) = None ->
  invoke event context
  = (Ok {| statusCode := 500;
           headers := cors_headers;
           body := json_dumps
                     (PDict [("error",
                              PStr "Network connection error while fetching weather data.")]) |},
     [weather_request city]).
Proof.
  intros Hcity Htrue Hlog Hfail Hcls Hmsg.
  apply (connection_error_reported event context city cls msg); try assumption.
  simpl in Hcls. decompose [or] Hcls; subst; try reflexivity; contradiction.
Qed.

(** X10: when the provider is called, the call raises [Timeout] or
    [ReadTimeout], and the log stream takes the line with the message of the
    exception, the response is status 500 with the error "Request to external
    API timed out.". *)
Theorem slow_provider_reported
    (event context city : pyval) (cls : exn_class) (msg : string) :
  supplied_city event = Some city ->
  truthy city = true ->
  encode_error ("Fetching weather for city: " ++ py_str city) = None ->
  upstream (weather_request city) = Failed cls msg ->
  In cls [Timeout; ReadTimeout] ->
  encode_error ("Request timed out: " ++ msg) = None ->
  invoke event context
  = (Ok {| statusCode := 500;
           headers := cors_headers;
           body := json_dumps (PDict [("error", PStr "Request to external API timed out.")]) |},
     [weather_request city]).
Proof.
  intros Hcity Htrue Hlog Hfail Hcls Hmsg.
  apply (timeout_reported event context city cls msg); try assumption;
    simpl in Hcls; decompose [or] Hcls; subst; try reflexivity; contradiction.
Qed.

(** X11: when the provider is called, the call raises an exception that is
    neither a connection error, nor a timeout, nor a JSON decoding error (a
    URL that is not set makes [requests] raise [MissingSchema], for one), and
    the log stream takes the line with the message of the exception, the
    response is status 500 "Internal server error." with [str(e)] under
    [details]. *)
Theorem unexpected_provider_failure
    (event context city : pyval) (cls : exn_class) (msg : string) :
  supplied_city event = Some city ->
  truthy city = true ->
  encode_error ("Fetching weather for city: " ++ py_str city) = None ->
  upstream (weather_request city) = Failed cls msg ->
  issubclass cls ConnectionError = false ->
  issubclass cls Timeout = false ->
  issubclass cls JSONDecodeError = false ->
  encode_error ("An unexpected error occurred: " ++ msg) = None ->
  invoke event context
  = (Ok {| statusCode := 500;
           headers := cors_headers;
           body := json_dumps
                     (PDict [("error", PStr "Internal server error.");
                             ("details", PStr msg)]) |},
     [weather_request city]).
Proof.
  intros Hcity Htrue Hlog Hfail Hconn Htimeout Hjson Hmsg.
  provider_raises Hcity Htrue Hlog Hfail.
  rewrite Hconn, Htimeout, Hjson, issubclass_Exception. cbv beta iota zeta.
  rewrite (print_written _ Hmsg). reflexivity.
Qed.

(** X12: when the [body] of the event is true but not a [str] (an object that
    was already decoded, a number), [json.loads] raises [TypeError]: the
    response is status 500 "Internal server error.", not 400, and no call is
    made. *)
Theorem non_string_body_is_internal_error
    (context body_value : pyval) (items : list (string * pyval)) :
  dict_get items "body" PNone = body_value ->
  truthy body_value = true ->
  String.eqb (type_name body_value) "str" = false ->
  invoke (PDict items) context
  = (Ok {| statusCode := 500;
           headers := cors_headers;
           body := json_dumps
                     (PDict [("error", PStr "Internal server error.");
                             ("details",
                              PStr ("the JSON object must be str, bytes or bytearray, not "
                                      ++ type_name body_value))]) |},
     []).
Proof.
  intros Hbody Htrue Hnot.
  unfold invoke, lambda_handler, try_except.
  rewrite try_block_with_body by (rewrite Hbody; exact Htrue).
  rewrite Hbody. unfold bind at 1.
  destruct body_value; try discriminate; reflexivity.
Qed.

End Handler.

(* ================================================================= *)
(** ** The handler on concrete requests *)

(** One invocation in the sample environment. *)
#[warnings="-notation-for-abbreviation"]
Notation run provider event :=
  (invoke json.loads json.dumps Sample.key Sample.host Sample.endpoint
          provider Sample.now Sample.repr Sample.stdout event PNone).

(** C1, at the input where the code departs from it: the request body is
    [{"city": "Cairo"}] and the provider replies 200 with [{"list": []}].  The
    handler answers 500 "Internal server error." with the details "list index
    out of range", not 200 with null weather fields. *)
Theorem empty_forecast_list_gives_500 :
  run (Sample.replies 200 (json.text_of "{'list': []}")) Sample.cairo_post
  = (Ok {| statusCode := 500;
           headers := cors_headers;
           body := json.text_of
                     "{'error': 'Internal server error.', 'details': 'list index out of range'}" |},
     [Sample.call Sample.cairo]).
Proof.
  apply (empty_forecast_list_is_internal_error
           json.loads json.dumps Sample.key Sample.host Sample.endpoint
           (Sample.replies 200 (json.text_of "{'list': []}")) Sample.now
           Sample.repr Sample.stdout
           Sample.cairo_post PNone Sample.cairo
           {| status_code := 200; text := json.text_of "{'list': []}" |}
           [("list", PList [])]);
    solve [reflexivity | lia].
Qed.

(** The success path on a POST request: the provider's first forecast entry is
    reshaped and the city of the request is echoed. *)
Example success_on_post :
  run (Sample.replies 200
         (json.text_of
            "{'cod': '200', 'list': [{'main': {'temprature': 293, 'temprature_feels_like': 291, 'humidity': 40}, 'weather': [{'description': 'clear sky', 'icon': '01d'}], 'wind': {'speed': 3}}, {'main': {}}]}"))
      Sample.cairo_post
  = (Ok {| statusCode := 200;
           headers := cors_headers;
           body := json.text_of
                     "{'city': 'Cairo', 'country': null, 'temperature': 293, 'feels_like': 291, 'description': 'clear sky', 'icon': '01d', 'humidity': 40, 'wind_speed': 3, 'timestamp': '2024-05-01T12:00:00.000000'}" |},
     [Sample.call Sample.cairo]).
Proof. vm_compute. reflexivity. Qed.

(** The same on a GET request, with a payload that has no [list] at all: the
    default [[{}]] makes every weather field null. *)
Example success_on_get_without_list :
  run (Sample.replies 200 (json.text_of "{'cod': '200'}")) (Sample.get "Giza")
  = (Ok {| statusCode := 200;
           headers := cors_headers;
           body := json.text_of
                     "{'city': 'Giza', 'country': null, 'temperature': null, 'feels_like': null, 'description': null, 'icon': null, 'humidity': null, 'wind_speed': null, 'timestamp': '2024-05-01T12:00:00.000000'}" |},
     [Sample.call (PStr "Giza")]).
Proof. vm_compute. reflexivity. Qed.

(** A request with neither body nor query parameters. *)
Example neither_body_nor_query :
  run (Sample.replies 200 "{}") (PDict [("httpMethod", PStr "GET")])
  = (Ok {| statusCode := 400;
           headers := cors_headers;
           body := json.text_of
                     "{'error': 'City parameter missing in request body or query string.'}" |},
     []).
Proof. vm_compute. reflexivity. Qed.

(** A city that the log stream cannot encode: line 50 raises, the last clause
    answers 500 with the message of the codec, and the provider is not
    called. *)
Example unloggable_city_gives_500_without_call :
  run (Sample.replies 200 Sample.forecast_text) (Sample.get Sample.lone_surrogate)
  = (Ok {| statusCode := 500;
           headers := cors_headers;
           body := json.dumps
                     (PDict [("error", PStr "Internal server error.");
                             ("details",
                              PStr "'utf-8' codec can't encode character: surrogates not allowed")]) |},
     []).
Proof. vm_compute. reflexivity. Qed.

(** C3 as stated fails: the request supplies the city "Cairo", the provider
    replies 200 with [{"list": [{"main": null}]}], whose [list] is a non-empty
    sequence, and the handler answers 500, not 200. *)
Lemma nonempty_list_can_give_500 :
  supplied_city json.loads Sample.cairo_post = Some (PStr "Cairo")
  /\ json.loads (json.text_of "{'list': [{'main': null}]}")
     = Some (PDict [("list", PList [PDict [("main", PNone)]])])
  /\ run (Sample.replies 200 (json.text_of "{'list': [{'main': null}]}")) Sample.cairo_post
     = (Ok {| statusCode := 500;
              headers := cors_headers;
              body := json.dumps
                        (PDict [("error", PStr "Internal server error.");
                                ("details",
                                 PStr "'NoneType' object has no attribute 'get'")]) |},
        [Sample.call Sample.cairo])
  /\ ~ (exists r calls,
          run (Sample.replies 200 (json.text_of "{'list': [{'main': null}]}"))
              Sample.cairo_post
          = (Ok r, calls)
          /\ statusCode r = 200).
Proof.
  repeat split; try (vm_compute; reflexivity).
  intros [r [calls [Hrun Hstatus]]].
  vm_compute in Hrun. injection Hrun as <- _.
  discriminate Hstatus.
Qed.

(** C3, amended, on a GET request for "Giza" with the reply
    [{"list": [{"main": {"humidity": 40}}]}]. *)
Lemma city_echoed_for_well_shaped_forecast_witness :
  supplied_city json.loads (Sample.get "Giza") = Some (PStr "Giza")
  /\ well_shaped (PDict [("main", PDict [("humidity", PInt 40)])]) = true
  /\ exists formatted_weather,
       run (Sample.replies 200 (json.text_of "{'list': [{'main': {'humidity': 40}}]}"))
           (Sample.get "Giza")
       = (Ok {| statusCode := 200;
                headers := cors_headers;
                body := json.dumps (PDict formatted_weather) |},
          [Sample.call (PStr "Giza")])
       /\ dict_lookup "city" formatted_weather = Some (PStr "Giza").
Proof.
  split; [reflexivity | split; [reflexivity | ]].
  apply (city_echoed_for_well_shaped_forecast
           json.loads json.dumps Sample.key Sample.host Sample.endpoint
           (Sample.replies 200 (json.text_of "{'list': [{'main': {'humidity': 40}}]}"))
           Sample.now Sample.repr Sample.stdout (Sample.get "Giza") PNone "Giza"
           {| status_code := 200;
              text := json.text_of "{'list': [{'main': {'humidity': 40}}]}" |}
           [("list", PList [PDict [("main", PDict [("humidity", PInt 40)])]])]
           (PDict [("main", PDict [("humidity", PInt 40)])]) []);
    solve [reflexivity | cbn; lia].
Defined.

(** C4, at the input where the code departs from it: the call of the provider
    runs into the timeout while connecting, so [requests] raises
    [ConnectTimeout], a subclass of both [ConnectionError] and [Timeout].  The
    clause for [ConnectionError] comes first: the error is "Network connection
    error while fetching weather data.", not "Request to external API timed
    out.". *)
Theorem connect_timeout_reported_as_connection_error :
  issubclass ConnectTimeout Timeout = true
  /\ run (Sample.fails ConnectTimeout "connect timeout=10") Sample.cairo_post
     = (Ok {| statusCode := 500;
              headers := cors_headers;
              body := json.text_of
                        "{'error': 'Network connection error while fetching weather data.'}" |},
        [Sample.call Sample.cairo]).
Proof.
  split; [reflexivity | ].
  apply (connection_error_reported
           json.loads json.dumps Sample.key Sample.host Sample.endpoint
           (Sample.fails ConnectTimeout "connect timeout=10") Sample.now
           Sample.repr Sample.stdout
           Sample.cairo_post PNone Sample.cairo ConnectTimeout "connect timeout=10");
    reflexivity.
Qed.

(** The sibling path: a timeout while reading the reply is [ReadTimeout], which
    only derives from [Timeout], and is reported as a timeout. *)
Example read_timeout_reported_as_timeout :
  run (Sample.fails ReadTimeout "read timeout=10") Sample.cairo_post
  = (Ok {| statusCode := 500;
           headers := cors_headers;
           body := json.text_of "{'error': 'Request to external API timed out.'}" |},
     [Sample.call Sample.cairo]).
Proof.
  apply (timeout_reported
           json.loads json.dumps Sample.key Sample.host Sample.endpoint
           (Sample.fails ReadTimeout "read timeout=10") Sample.now
           Sample.repr Sample.stdout
           Sample.cairo_post PNone Sample.cairo ReadTimeout "read timeout=10");
    reflexivity.
Qed.

(** C5, at the input where the code departs from it: the request asks for
    "Cairo" and the provider replies 404 with a text that the log stream
    cannot encode (the character U+D800).  Line 104 prints the text inside the
    clause for [HTTPError] and raises [UnicodeEncodeError]: the handler
    returns no response, where the claim has status 404 with the text under
    [details]. *)
Theorem unwritable_error_text_is_not_passed_through :
  400 <= 404 < 600
  /\ exists msg,
      run (Sample.replies 404 Sample.lone_surrogate) Sample.cairo_post
      = (Raised (Exc UnicodeEncodeError msg), [Sample.call Sample.cairo]).
Proof.
  split; [lia | ].
  eexists.
  apply (unwritable_error_text_raises
           json.loads json.dumps Sample.key Sample.host Sample.endpoint
           (Sample.replies 404 Sample.lone_surrogate) Sample.now
           Sample.repr Sample.stdout
           Sample.cairo_post PNone Sample.cairo
           {| status_code := 404; text := Sample.lone_surrogate |});
    solve [reflexivity | cbn; lia].
Qed.

(** C6, at the input where the code departs from it: the provider replies 503
    with a text that the log stream cannot encode.  The exception that
    [print] raises inside the clause for [HTTPError] is caught by no other
    clause: the invocation ends with [UnicodeEncodeError] and returns no
    response. *)
Theorem unwritable_error_text_ends_invocation :
  (exists e calls,
     run (Sample.replies 503 ("Service Unavailable " ++ Sample.lone_surrogate))
         Sample.cairo_post
     = (Raised e, calls))
  /\ ~ (exists r calls,
          run (Sample.replies 503 ("Service Unavailable " ++ Sample.lone_surrogate))
              Sample.cairo_post
          = (Ok r, calls)).
Proof.
  split.
  - eexists. eexists. vm_compute. reflexivity.
  - intros [r [calls Hrun]]. vm_compute in Hrun. discriminate Hrun.
Qed.

(** C2 on the response to a POST request for "Cairo" that the provider
    answers with 404. *)
Lemma every_response_has_cors_headers_witness :
  run (Sample.replies 404 "city not found") Sample.cairo_post
  = (Ok {| statusCode := 404;
           headers := cors_headers;
           body := json.text_of
                     "{'error': 'Failed to fetch weather data from external API.', 'details': 'HTTP error occurred: city not found'}" |},
     [Sample.call Sample.cairo])
  /\ headers
       {| statusCode := 404;
          headers := cors_headers;
          body := json.text_of
                    "{'error': 'Failed to fetch weather data from external API.', 'details': 'HTTP error occurred: city not found'}" |}
     = [("Content-Type", "application/json");
        ("Access-Control-Allow-Origin", "*");
        ("Access-Control-Allow-Methods", "GET,POST,OPTIONS");
        ("Access-Control-Allow-Headers",
         "Content-Type,X-Amz-Date,Authorization,X-Api-Key,X-Amz-Security-Token")].
Proof.
  split; [vm_compute; reflexivity | ].
  apply (every_response_has_cors_headers
           json.loads json.dumps Sample.key Sample.host Sample.endpoint
           (Sample.replies 404 "city not found") Sample.now
           Sample.repr Sample.stdout
           Sample.cairo_post PNone
           {| statusCode := 404;
              headers := cors_headers;
              body := json.text_of
                        "{'error': 'Failed to fetch weather data from external API.', 'details': 'HTTP error occurred: city not found'}" |}
           [Sample.call Sample.cairo]).
  vm_compute. reflexivity.
Defined.

(** X16 on a request for "Cairo" when the provider replies 404 with the text
    "city not found". *)
Lemma upstream_error_passed_through_witness :
  supplied_city json.loads Sample.cairo_post = Some Sample.cairo
  /\ 400 <= 404 < 600
  /\ run (Sample.replies 404 "city not found") Sample.cairo_post
     = (Ok {| statusCode := 404;
              headers := cors_headers;
              body := json.text_of
                        "{'error': 'Failed to fetch weather data from external API.', 'details': 'HTTP error occurred: city not found'}" |},
        [Sample.call Sample.cairo]).
Proof.
  split; [reflexivity | split; [lia | ]].
  apply (upstream_error_passed_through
           json.loads json.dumps Sample.key Sample.host Sample.endpoint
           (Sample.replies 404 "city not found") Sample.now
           Sample.repr Sample.stdout
           Sample.cairo_post PNone Sample.cairo
           {| status_code := 404; text := "city not found" |});
    solve [reflexivity | cbn; lia].
Defined.

(** C7 on the request body whose [city] is the empty string. *)
Lemma empty_city_rejected_witness :
  supplied_city json.loads (Sample.post (json.text_of "{'city': ''}"))
  = Some (PStr EmptyString)
  /\ run (Sample.replies 200 "{}") (Sample.post (json.text_of "{'city': ''}"))
     = (Ok {| statusCode := 400;
              headers := cors_headers;
              body := json.text_of "{'error': 'City parameter is required.'}" |},
        []).
Proof.
  split; [reflexivity | ].
  apply (empty_city_rejected
           json.loads json.dumps Sample.key Sample.host Sample.endpoint
           (Sample.replies 200 "{}") Sample.now Sample.repr Sample.stdout
           (Sample.post (json.text_of "{'city': ''}")) PNone (PStr EmptyString));
    reflexivity.
Defined.

(** C8 on a request body cut short in the middle of the city's name. *)
Lemma undecodable_body_rejected_witness :
  json.loads (json.text_of "{'city': 'Cai") = None
  /\ run (Sample.replies 200 "{}") (Sample.post (json.text_of "{'city': 'Cai"))
     = (Ok {| statusCode := 400;
              headers := cors_headers;
              body := json.text_of "{'error': 'Invalid JSON in request body.'}" |},
        []).
Proof.
  split; [reflexivity | ].
  apply (undecodable_body_rejected
           json.loads json.dumps Sample.key Sample.host Sample.endpoint
           (Sample.replies 200 "{}") Sample.now Sample.repr Sample.stdout PNone
           [("httpMethod", PStr "POST"); ("body", PStr (json.text_of "{'city': 'Cai"))]
           (json.text_of "{'city': 'Cai"));
    reflexivity.
Defined.

(** C9 on a request for "Cairo" when the provider replies 200 with an HTML
    page. *)
Lemma undecodable_reply_blamed_on_request_witness :
  supplied_city json.loads Sample.cairo_post = Some Sample.cairo
  /\ json.loads "<html>Service unavailable</html>" = None
  /\ run (Sample.replies 200 "<html>Service unavailable</html>") Sample.cairo_post
     = (Ok {| statusCode := 400;
              headers := cors_headers;
              body := json.text_of "{'error': 'Invalid JSON in request body.'}" |},
        [Sample.call Sample.cairo]).
Proof.
  split; [reflexivity | split; [reflexivity | ]].
  apply (undecodable_reply_blamed_on_request
           json.loads json.dumps Sample.key Sample.host Sample.endpoint
           (Sample.replies 200 "<html>Service unavailable</html>") Sample.now
           Sample.repr Sample.stdout
           Sample.cairo_post PNone Sample.cairo
           {| status_code := 200; text := "<html>Service unavailable</html>" |});
    solve [reflexivity | cbn; lia].
Defined.

(** C10 on the request body [["Cairo"]], a JSON array. *)
Lemma non_object_body_is_internal_error_witness :
  json.loads (json.text_of "['Cairo']") = Some (PList [PStr "Cairo"])
  /\ run (Sample.replies 200 "{}") (Sample.post (json.text_of "['Cairo']"))
     = (Ok {| statusCode := 500;
              headers := cors_headers;
              body := json.dumps
                        (PDict [("error", PStr "Internal server error.");
                                ("details",
                                 PStr "'list' object has no attribute 'get'")]) |},
        []).
Proof.
  split; [reflexivity | ].
  apply (non_object_body_is_internal_error
           json.loads json.dumps Sample.key Sample.host Sample.endpoint
           (Sample.replies 200 "{}") Sample.now Sample.repr Sample.stdout PNone
           [("httpMethod", PStr "POST"); ("body", PStr (json.text_of "['Cairo']"))]
           (json.text_of "['Cairo']") (PList [PStr "Cairo"]));
    reflexivity.
Defined.

(* ================================================================= *)
(** ** The further properties on concrete requests *)

(** X1 on a GET request whose body and query parameters are null. *)
Lemma missing_city_parameter_witness :
  run (Sample.replies 200 "{}")
      (PDict [("httpMethod", PStr "GET"); ("queryStringParameters", PNone); ("body", PNone)])
  = (Ok {| statusCode := 400;
           headers := cors_headers;
           body := json.text_of
                     "{'error': 'City parameter missing in request body or query string.'}" |},
     []).
Proof.
  apply (missing_city_parameter
           json.loads json.dumps Sample.key Sample.host Sample.endpoint
           (Sample.replies 200 "{}") Sample.now Sample.repr Sample.stdout PNone
           [("httpMethod", PStr "GET"); ("queryStringParameters", PNone); ("body", PNone)]);
    reflexivity.
Defined.

(** X2 on a request whose body asks for Cairo and whose query parameters ask
    for Giza. *)
Lemma body_shadows_query_witness :
  run (Sample.replies 200 Sample.forecast_text)
      (PDict [("queryStringParameters", PDict [("city", PStr "Giza")]);
              ("body", PStr (json.text_of "{'city': 'Cairo'}"))])
  = run (Sample.replies 200 Sample.forecast_text) Sample.cairo_post.
Proof.
  apply (body_shadows_query
           json.loads json.dumps Sample.key Sample.host Sample.endpoint
           (Sample.replies 200 Sample.forecast_text) Sample.now
           Sample.repr Sample.stdout PNone
           [("httpMethod", PStr "POST"); ("body", PStr (json.text_of "{'city': 'Cairo'}"))]
           [("queryStringParameters", PDict [("city", PStr "Giza")]);
            ("body", PStr (json.text_of "{'city': 'Cairo'}"))]);
    reflexivity.
Defined.

(** X3 on a request for Cairo when the provider does not answer in time: the
    line about the city is ASCII, so the one call is made. *)
Lemma one_call_when_city_is_logged_witness :
  supplied_city json.loads Sample.cairo_post = Some Sample.cairo
  /\ snd (run (Sample.fails ReadTimeout "read timeout=10") Sample.cairo_post)
     = [ {| url := Sample.endpoint;
            request_headers := [("X-RapidAPI-Key", Sample.key);
                                ("X-RapidAPI-Host", Sample.host)];
            params := [("place", PStr "Cairo");
                       ("units", PStr "standard");
                       ("mode", PStr "json");
                       ("lang", PStr "en")];
            timeout := 10 |} ].
Proof.
  split; [reflexivity | ].
  apply (one_call_when_city_is_logged
           json.loads json.dumps Sample.key Sample.host Sample.endpoint
           (Sample.fails ReadTimeout "read timeout=10") Sample.now
           Sample.repr Sample.stdout
           Sample.cairo_post PNone Sample.cairo);
    reflexivity.
Defined.

(** X5 on a request for Cairo and a reply with two forecast entries. *)
Lemma first_forecast_reshaped_witness :
  run (Sample.replies 200 Sample.forecast_text) Sample.cairo_post
  = (Ok {| statusCode := 200;
           headers := cors_headers;
           body := json.text_of
                     "{'city': 'Cairo', 'country': null, 'temperature': 293, 'feels_like': 291, 'description': 'clear sky', 'icon': '01d', 'humidity': 40, 'wind_speed': 3, 'timestamp': '2024-05-01T12:00:00.000000'}" |},
     [Sample.call Sample.cairo]).
Proof.
  apply (first_forecast_reshaped
           json.loads json.dumps Sample.key Sample.host Sample.endpoint
           (Sample.replies 200 Sample.forecast_text) Sample.now
           Sample.repr Sample.stdout
           Sample.cairo_post PNone Sample.cairo
           {| status_code := 200; text := Sample.forecast_text |}
           [("cod", PStr "200");
            ("list",
             PList [PDict [("main", PDict [("temprature", PInt 293);
                                           ("temprature_feels_like", PInt 291);
                                           ("humidity", PInt 40)]);
                           ("weather", PList [PDict [("description", PStr "clear sky");
                                                     ("icon", PStr "01d")]]);
                           ("wind", PDict [("speed", PInt 3)])];
                    PDict [("main", PDict [])]])]
           [("main", PDict [("temprature", PInt 293);
                            ("temprature_feels_like", PInt 291);
                            ("humidity", PInt 40)]);
            ("weather", PList [PDict [("description", PStr "clear sky");
                                      ("icon", PStr "01d")]]);
            ("wind", PDict [("speed", PInt 3)])]
           [("temprature", PInt 293); ("temprature_feels_like", PInt 291);
            ("humidity", PInt 40)]
           [("speed", PInt 3)]
           [("description", PStr "clear sky"); ("icon", PStr "01d")]
           [PDict [("main", PDict [])]] []);
    solve [reflexivity | cbn; lia].
Defined.

(** X6 on a GET request for Giza and a reply without [list]. *)
Lemma absent_list_gives_null_fields_witness :
  dict_lookup "list" [("cod", PStr "200")] = None
  /\ run (Sample.replies 200 (json.text_of "{'cod': '200'}")) (Sample.get "Giza")
     = (Ok {| statusCode := 200;
              headers := cors_headers;
              body := json.text_of
                        "{'city': 'Giza', 'country': null, 'temperature': null, 'feels_like': null, 'description': null, 'icon': null, 'humidity': null, 'wind_speed': null, 'timestamp': '2024-05-01T12:00:00.000000'}" |},
        [Sample.call (PStr "Giza")]).
Proof.
  split; [reflexivity | ].
  apply (absent_list_gives_null_fields
           json.loads json.dumps Sample.key Sample.host Sample.endpoint
           (Sample.replies 200 (json.text_of "{'cod': '200'}")) Sample.now
           Sample.repr Sample.stdout
           (Sample.get "Giza") PNone (PStr "Giza")
           {| status_code := 200; text := json.text_of "{'cod': '200'}" |}
           [("cod", PStr "200")]);
    solve [reflexivity | cbn; lia].
Defined.

(** X7 on the response to a GET request for Giza that the provider answers
    with 503. *)
Lemma status_is_200_or_error_witness :
  run (Sample.replies 503 "Service Unavailable") (Sample.get "Giza")
  = (Ok {| statusCode := 503;
           headers := cors_headers;
           body := json.text_of
                     "{'error': 'Failed to fetch weather data from external API.', 'details': 'HTTP error occurred: Service Unavailable'}" |},
     [Sample.call (PStr "Giza")])
  /\ (503 = 200 \/ 400 <= 503 < 600).
Proof.
  split; [vm_compute; reflexivity | ].
  apply (status_is_200_or_error
           json.loads json.dumps Sample.key Sample.host Sample.endpoint
           (Sample.replies 503 "Service Unavailable") Sample.now
           Sample.repr Sample.stdout
           (Sample.get "Giza") PNone
           {| statusCode := 503;
              headers := cors_headers;
              body := json.text_of
                        "{'error': 'Failed to fetch weather data from external API.', 'details': 'HTTP error occurred: Service Unavailable'}" |}
           [Sample.call (PStr "Giza")]).
  vm_compute. reflexivity.
Defined.

(** X8 on the response to a GET request for Giza. *)
Lemma ok_status_means_forecast_served_witness :
  exists city response rest,
    supplied_city json.loads (Sample.get "Giza") = Some city
    /\ truthy city = true
    /\ [Sample.call (PStr "Giza")] = [weather_request Sample.key Sample.host Sample.endpoint city]
    /\ Sample.replies 200 (json.text_of "{'cod': '200'}")
         (weather_request Sample.key Sample.host Sample.endpoint city)
       = Responded response
    /\ ~ (400 <= status_code response < 600)
    /\ json.dumps
         (PDict [("city", PStr "Giza"); ("country", PNone); ("temperature", PNone);
                 ("feels_like", PNone); ("description", PNone); ("icon", PNone);
                 ("humidity", PNone); ("wind_speed", PNone);
                 ("timestamp", PStr Sample.now)])
       = json.dumps (PDict (("city", city) :: ("country", PNone) :: rest)).
Proof.
  apply (ok_status_means_forecast_served
           json.loads json.dumps Sample.key Sample.host Sample.endpoint
           (Sample.replies 200 (json.text_of "{'cod': '200'}")) Sample.now
           Sample.repr Sample.stdout
           (Sample.get "Giza") PNone
           {| statusCode := 200;
              headers := cors_headers;
              body := json.dumps
                        (PDict [("city", PStr "Giza"); ("country", PNone);
                                ("temperature", PNone); ("feels_like", PNone);
                                ("description", PNone); ("icon", PNone);
                                ("humidity", PNone); ("wind_speed", PNone);
                                ("timestamp", PStr Sample.now)]) |}
           [Sample.call (PStr "Giza")]);
    reflexivity.
Defined.

(** X9 on a request for Cairo when the proxy refuses the connection. *)
Lemma unreachable_provider_reported_witness :
  In ProxyError [ConnectionError; ProxyError; SSLError]
  /\ run (Sample.fails ProxyError "Cannot connect to proxy.") Sample.cairo_post
     = (Ok {| statusCode := 500;
              headers := cors_headers;
              body := json.text_of
                        "{'error': 'Network connection error while fetching weather data.'}" |},
        [Sample.call Sample.cairo]).
Proof.
  split; [simpl; auto | ].
  apply (unreachable_provider_reported
           json.loads json.dumps Sample.key Sample.host Sample.endpoint
           (Sample.fails ProxyError "Cannot connect to proxy.") Sample.now
           Sample.repr Sample.stdout
           Sample.cairo_post PNone Sample.cairo ProxyError "Cannot connect to proxy.");
    solve [reflexivity | simpl; auto].
Defined.

(** X10 on a request for Cairo when the reply does not come in time. *)
Lemma slow_provider_reported_witness :
  In ReadTimeout [Timeout; ReadTimeout]
  /\ run (Sample.fails ReadTimeout "read timeout=10") Sample.cairo_post
     = (Ok {| statusCode := 500;
              headers := cors_headers;
              body := json.text_of "{'error': 'Request to external API timed out.'}" |},
        [Sample.call Sample.cairo]).
Proof.
  split; [simpl; auto | ].
  apply (slow_provider_reported
           json.loads json.dumps Sample.key Sample.host Sample.endpoint
           (Sample.fails ReadTimeout "read timeout=10") Sample.now
           Sample.repr Sample.stdout
           Sample.cairo_post PNone Sample.cairo ReadTimeout "read timeout=10");
    solve [reflexivity | simpl; auto].
Defined.

(** X11 on a request for Cairo when [WEATHER_API_URL] is not set. *)
Lemma unexpected_provider_failure_witness :
  issubclass MissingSchema ConnectionError = false
  /\ issubclass MissingSchema Timeout = false
  /\ issubclass MissingSchema JSONDecodeError = false
  /\ invoke json.loads json.dumps Sample.key Sample.host PNone
            (Sample.fails MissingSchema "Invalid URL 'None': No scheme supplied.")
            Sample.now Sample.repr Sample.stdout Sample.cairo_post PNone
     = (Ok {| statusCode := 500;
              headers := cors_headers;
              body := json.dumps
                        (PDict [("error", PStr "Internal server error.");
                                ("details",
                                 PStr "Invalid URL 'None': No scheme supplied.")]) |},
        [weather_request Sample.key Sample.host PNone Sample.cairo]).
Proof.
  repeat (split; [reflexivity | ]).
  apply (unexpected_provider_failure
           json.loads json.dumps Sample.key Sample.host PNone
           (Sample.fails MissingSchema "Invalid URL 'None': No scheme supplied.")
           Sample.now Sample.repr Sample.stdout Sample.cairo_post PNone Sample.cairo
           MissingSchema "Invalid URL 'None': No scheme supplied.");
    reflexivity.
Defined.

(** X12 on an event whose body is an object, not the text of one. *)
Lemma non_string_body_is_internal_error_witness :
  run (Sample.replies 200 Sample.forecast_text)
      (PDict [("httpMethod", PStr "POST"); ("body", PDict [("city", PStr "Cairo")])])
  = (Ok {| statusCode := 500;
           headers := cors_headers;
           body := json.text_of
                     "{'error': 'Internal server error.', 'details': 'the JSON object must be str, bytes or bytearray, not dict'}" |},
     []).
Proof.
  apply (non_string_body_is_internal_error
           json.loads json.dumps Sample.key Sample.host Sample.endpoint
           (Sample.replies 200 Sample.forecast_text) Sample.now
           Sample.repr Sample.stdout PNone
           (PDict [("city", PStr "Cairo")])
           [("httpMethod", PStr "POST"); ("body", PDict [("city", PStr "Cairo")])]);
    reflexivity.
Defined.

(** X13 on a reply whose first entry has an empty [weather]. *)
Lemma empty_weather_list_is_internal_error_witness :
  dict_lookup "weather" [("weather", PList [])] = Some (PList [])
  /\ run (Sample.replies 200 (json.text_of "{'list': [{'weather': []}]}")) Sample.cairo_post
     = (Ok {| statusCode := 500;
              headers := cors_headers;
              body := json.text_of
                        "{'error': 'Internal server error.', 'details': 'list index out of range'}" |},
        [Sample.call Sample.cairo]).
Proof.
  split; [reflexivity | ].
  apply (empty_weather_list_is_internal_error
           json.loads json.dumps Sample.key Sample.host Sample.endpoint
           (Sample.replies 200 (json.text_of "{'list': [{'weather': []}]}")) Sample.now
           Sample.repr Sample.stdout
           Sample.cairo_post PNone Sample.cairo
           {| status_code := 200; text := json.text_of "{'list': [{'weather': []}]}" |}
           [("list", PList [PDict [("weather", PList [])]])]
           [("weather", PList [])] [] []);
    solve [reflexivity | cbn; lia].
Defined.

(** X14 on a reply whose first entry has a null [main]. *)
Lemma non_mapping_main_is_internal_error_witness :
  is_dict PNone = false
  /\ run (Sample.replies 200 (json.text_of "{'list': [{'main': null}]}")) Sample.cairo_post
     = (Ok {| statusCode := 500;
              headers := cors_headers;
              body := json.dumps
                        (PDict [("error", PStr "Internal server error.");
                                ("details",
                                 PStr "'NoneType' object has no attribute 'get'")]) |},
        [Sample.call Sample.cairo]).
Proof.
  split; [reflexivity | ].
  apply (non_mapping_main_is_internal_error
           json.loads json.dumps Sample.key Sample.host Sample.endpoint
           (Sample.replies 200 (json.text_of "{'list': [{'main': null}]}")) Sample.now
           Sample.repr Sample.stdout
           Sample.cairo_post PNone Sample.cairo PNone
           {| status_code := 200; text := json.text_of "{'list': [{'main': null}]}" |}
           [("list", PList [PDict [("main", PNone)]])]
           [("main", PNone)] []);
    solve [reflexivity | cbn; lia].
Defined.

